(** * wechat-jssdk: credential and signature caching core

    A shallow embedding of the JSSDK signature engine (the TypeScript class
    and the older JavaScript class that the repository both carries) and of
    the OAuth token manager, together with the properties the natural
    language specification states about them.

    Conventions.
    - JavaScript strings are modelled as [string] (sequences of 8-bit code
      units); comparison is by code unit, as [Array.prototype.sort] does.
    - JavaScript numbers that hold instants or durations are modelled as [Z]
      (milliseconds since the epoch); all the arithmetic of the source stays
      far below 2^53, where doubles are exact. A [Date] is its time value;
      a date string is read by the [Date.parse] of the host, which the
      state carries.
    - JavaScript objects are association lists from property names to
      values, in insertion order. *)

From Stdlib Require Import ZArith NArith List String Ascii Bool Lia.
From stdpp Require Import base option list strings gmap pretty sorting.

Local Open Scope string_scope.

(** ** SHA-1 (FIPS 180-4), the digest behind [utils.genSHA1] *)

Module SHA1.

Local Open Scope N_scope.

Definition word := N.

Definition mask32 : N := 0xFFFFFFFF.

Definition add32 (a b : word) : word := N.land (a + b) mask32.

Definition rotl (n : N) (x : word) : word :=
  N.lor (N.land (N.shiftl x n) mask32) (N.shiftr x (32 - n)).

Definition not32 (x : word) : word := N.lxor x mask32.

Definition bytes_of_string (s : string) : list N :=
  map (fun c => N_of_ascii c) (list_ascii_of_string s).

(** Big-endian encoding of [x] on [n] bytes. *)
Fixpoint be_bytes (n : nat) (x : N) : list N :=
  match n with
  | O => []
  | S k => be_bytes k (N.shiftr x 8) ++ [N.land x 0xFF]
  end.

Definition pad (msg : list N) : list N :=
  let len := N.of_nat (length msg) in
  let zeros := N.to_nat ((64 + 55 - (len mod 64)) mod 64) in
  msg ++ [0x80] ++ repeat 0 zeros ++ be_bytes 8 (8 * len).

Fixpoint words_of_bytes (fuel : nat) (bs : list N) : list word :=
  match fuel, bs with
  | S k, b0 :: b1 :: b2 :: b3 :: rest =>
      (N.shiftl b0 24 + N.shiftl b1 16 + N.shiftl b2 8 + b3)
        :: words_of_bytes k rest
  | _, _ => []
  end.

(** The message schedule, kept newest word first. *)
Fixpoint extend (n : nat) (rw : list word) : list word :=
  match n with
  | O => rw
  | S k =>
      let w := rotl 1 (N.lxor (N.lxor (nth 2 rw 0) (nth 7 rw 0))
                              (N.lxor (nth 13 rw 0) (nth 15 rw 0))) in
      extend k (w :: rw)
  end.

Definition schedule (block : list word) : list word :=
  rev (extend 64 (rev block)).

Definition f_k (t : nat) (b c d : word) : word * word :=
  if (t <? 20)%nat then (N.lor (N.land b c) (N.land (not32 b) d), 0x5A827999)
  else if (t <? 40)%nat then (N.lxor (N.lxor b c) d, 0x6ED9EBA1)
  else if (t <? 60)%nat then
    (N.lor (N.lor (N.land b c) (N.land b d)) (N.land c d), 0x8F1BBCDC)
  else (N.lxor (N.lxor b c) d, 0xCA62C1D6).

Record hstate := H5 { ha : word; hb : word; hc : word; hd : word; he : word }.

Fixpoint rounds (t : nat) (ws : list word) (h : hstate) : hstate :=
  match ws with
  | [] => h
  | w :: ws' =>
      let '(f, k) := f_k t (hb h) (hc h) (hd h) in
      let tmp := add32 (add32 (add32 (add32 (rotl 5 (ha h)) f) (he h)) k) w in
      rounds (S t) ws' (H5 tmp (ha h) (rotl 30 (hb h)) (hc h) (hd h))
  end.

Definition compress (h : hstate) (block : list word) : hstate :=
  let r := rounds 0 (schedule block) h in
  H5 (add32 (ha h) (ha r)) (add32 (hb h) (hb r)) (add32 (hc h) (hc r))
     (add32 (hd h) (hd r)) (add32 (he h) (he r)).

Fixpoint blocks (fuel : nat) (ws : list word) (h : hstate) : hstate :=
  match fuel, ws with
  | S k, _ :: _ => blocks k (skipn 16 ws) (compress h (firstn 16 ws))
  | _, _ => h
  end.

Definition init : hstate :=
  H5 0x67452301 0xEFCDAB89 0x98BADCFE 0x10325476 0xC3D2E1F0.

Definition digest_words (msg : list N) : list word :=
  let bs := pad msg in
  let ws := words_of_bytes (length bs) bs in
  let h := blocks (length ws) ws init in
  [ha h; hb h; hc h; hd h; he h].

Definition hex_digit (n : N) : ascii :=
  if n <? 10 then ascii_of_N (48 + n) else ascii_of_N (87 + n).

Fixpoint hex_of_bytes (bs : list N) : string :=
  match bs with
  | [] => EmptyString
  | b :: rest =>
      String (hex_digit (N.shiftr b 4))
        (String (hex_digit (N.land b 0xF)) (hex_of_bytes rest))
  end.

(** The lower-case hexadecimal digest, 40 characters. *)
Definition hex (s : string) : string :=
  hex_of_bytes (flat_map (be_bytes 4) (digest_words (bytes_of_string s))).

End SHA1.

(** ** A small model of JavaScript values and objects *)

Module JS.

(** The values the modelled code handles. A [Date] object is represented
    by its time value, a number of milliseconds. *)
Inductive value :=
| VUndef
| VStr (s : string)
| VNum (n : Z).

#[global] Instance value_eq_dec : EqDecision value.
Proof. solve_decision. Defined.

(** ToBoolean. *)
Definition truthy (v : value) : bool :=
  match v with
  | VUndef => false
  | VStr s => negb (String.eqb s "")
  | VNum n => negb (n =? 0)%Z
  end.

(** ToString. *)
Definition to_string (v : value) : string :=
  match v with
  | VUndef => "undefined"
  | VStr s => s
  | VNum n => pretty n
  end.

(** [a || b] *)
Definition or_else (a b : value) : value := if truthy a then a else b.

(** [a ?? b] *)
Definition nullish (a b : value) : value :=
  match a with VUndef => b | _ => a end.

(** [a === b] *)
Definition strict_eq (a b : value) : bool := bool_decide (a = b).

(** Objects: own properties in insertion order, names unique. *)
Abbreviation obj := (list (string * value)).

Fixpoint lookup (k : string) (o : obj) : option value :=
  match o with
  | [] => None
  | (k', v) :: rest => if String.eqb k k' then Some v else lookup k rest
  end.

(** [o[k]], [undefined] for a missing property. *)
Definition get (k : string) (o : obj) : value := default VUndef (lookup k o).

(** [o[k] = v] *)
Fixpoint set (k : string) (v : value) (o : obj) : obj :=
  match o with
  | [] => [(k, v)]
  | (k', v') :: rest =>
      if String.eqb k k' then (k, v) :: rest else (k', v') :: set k v rest
  end.

(** [delete o[k]] *)
Fixpoint del (k : string) (o : obj) : obj :=
  match o with
  | [] => []
  | (k', v') :: rest =>
      if String.eqb k k' then del k rest else (k', v') :: del k rest
  end.

(** [Object.keys(o)] *)
Definition keys (o : obj) : list string := map fst o.

(** [Object.assign(target, src)] *)
Definition assign (target src : obj) : obj :=
  fold_left (fun t kv => set (fst kv) (snd kv) t) src target.

(** [s.indexOf(pat)], [-1] when [pat] does not occur. *)
Definition indexOf (s pat : string) : Z :=
  match String.index 0 pat s with
  | Some n => Z.of_nat n
  | None => (-1)%Z
  end.

(** [s.substring(0, n)] for [0 <= n]. *)
Definition substring0 (s : string) (n : Z) : string :=
  String.substring 0 (Z.to_nat n) s.

(** Stable insertion sort, the order [Array.prototype.sort] yields. *)
Section Sort.
Context {A : Type} (le : A -> A -> bool).

Fixpoint insert_sorted (x : A) (l : list A) : list A :=
    match l with
    | [] => [x]
    | y :: rest => if le y x then y :: insert_sorted x rest else x :: l
    end.

Definition sort_by (l : list A) : list A :=
    fold_left (fun acc x => insert_sorted x acc) l [].
End Sort.

(** [arr.sort()] without a comparator: [undefined] elements go last, the
    others are ordered by their string conversions. *)
Definition array_sort (arr : list value) : list value :=
  let defined := filter (fun v => v <> VUndef) arr in
  let undefs := filter (fun v => v = VUndef) arr in
  sort_by (fun a b => String.leb (to_string a) (to_string b)) defined
    ++ undefs.

(** [arr.join('')]: [undefined] contributes the empty string. *)
Definition join_empty (arr : list value) : string :=
  String.concat ""
    (map (fun v => match v with VUndef => "" | _ => to_string v end) arr).

(** [c.toLowerCase()] on one code unit (ASCII letters). *)
Definition lower_ascii (c : ascii) : ascii :=
  let n := nat_of_ascii c in
  if ((65 <=? n) && (n <=? 90))%nat then ascii_of_nat (n + 32) else c.

Fixpoint toLowerCase (s : string) : string :=
  match s with
  | EmptyString => EmptyString
  | String c rest => String (lower_ascii c) (toLowerCase rest)
  end.

(** *** Node's [url.parse]: the [hash] of a url

    [url.parse] trims its argument, splits protocol and host off, escapes
    what follows the host ([autoEscapeStr]) and cuts the result at the first
    [#]. Protocol and host hold no [#], so the hash is the part of the
    trimmed url from its first [#] on, with the characters of [autoEscape]
    percent-escaped; under the protocol [javascript:] nothing is escaped.
    The function is taken where it returns: recent versions of Node throw
    on a few malformed hosts. *)

(** The code units trimmed from both ends: those below 33 and the no-break
    space (older versions of Node trim fewer control characters; none of
    them is escaped, so [indexOf] finds the hash at the same place). *)
Definition isWs (c : ascii) : bool :=
  let n := nat_of_ascii c in ((n <? 33) || (n =? 160))%nat.

Fixpoint trim_start (s : string) : string :=
  match s with
  | EmptyString => EmptyString
  | String c rest => if isWs c then trim_start rest else s
  end.

Fixpoint trim_end (s : string) : string :=
  match s with
  | EmptyString => EmptyString
  | String c rest =>
      match trim_end rest with
      | EmptyString => if isWs c then EmptyString else String c EmptyString
      | String c' kept => String c (String c' kept)
      end
  end.

Definition trim (s : string) : string := trim_end (trim_start s).

(** [autoEscapeStr]: tab, line feed, carriage return, space, the double
    quote, the apostrophe and [< > \ ^ ` { | }] are always
    percent-escaped. *)
Definition autoEscape (c : ascii) : option string :=
  match nat_of_ascii c with
  | 9 => Some "%09" | 10 => Some "%0A" | 13 => Some "%0D" | 32 => Some "%20"
  | 34 => Some "%22" | 39 => Some "%27" | 60 => Some "%3C" | 62 => Some "%3E"
  | 92 => Some "%5C" | 94 => Some "%5E" | 96 => Some "%60" | 123 => Some "%7B"
  | 124 => Some "%7C" | 125 => Some "%7D"
  | _ => None
  end%nat.

Fixpoint autoEscapeStr (s : string) : string :=
  match s with
  | EmptyString => EmptyString
  | String c rest =>
      match autoEscape c with
      | Some e => e ++ autoEscapeStr rest
      | None => String c (autoEscapeStr rest)
      end
  end.

(** The part of a string from its first [#] on. *)
Fixpoint from_hash (u : string) : option string :=
  match u with
  | EmptyString => None
  | String c rest =>
      if Ascii.eqb c "#" then Some u else from_hash rest
  end.

(** The protocol pattern [/^[a-z0-9.+-]+:/i] yields the unsafe protocol
    [javascript:] exactly on the strings that begin with it, in any case. *)
Definition unsafeProtocol (rest : string) : bool :=
  String.prefix "javascript:" (toLowerCase rest).

(** [url.parse(u).hash]; [None] stands for [null]. *)
Definition parse_hash (u : string) : option string :=
  let rest := trim u in
  match from_hash rest with
  | None => None
  | Some h => Some (if unsafeProtocol rest then h else autoEscapeStr h)
  end.

End JS.

Import JS.

(** ** Node's [querystring] *)

Module QueryString.

(** The characters [querystring.escape] leaves alone: letters, digits and
    [- _ . ! ~ * ' ( )]. *)
Definition noEscape (c : ascii) : bool :=
  let n := nat_of_ascii c in
  (((48 <=? n) && (n <=? 57)) || ((65 <=? n) && (n <=? 90))
   || ((97 <=? n) && (n <=? 122))
   || (n =? 33) || ((39 <=? n) && (n <=? 42)) || (n =? 45) || (n =? 46)
   || (n =? 95) || (n =? 126))%nat.

Definition hexUpper (n : nat) : ascii :=
  if (n <? 10)%nat then ascii_of_nat (48 + n) else ascii_of_nat (55 + n).

(** [querystring.escape]: every other code unit becomes [%XX]. *)
Fixpoint escape (s : string) : string :=
  match s with
  | EmptyString => EmptyString
  | String c rest =>
      if noEscape c then String c (escape rest)
      else
        let n := nat_of_ascii c in
        String "%" (String (hexUpper (n / 16))
                      (String (hexUpper (n mod 16)) (escape rest)))
  end.

(** [stringifyPrimitive]: strings as they are, numbers in decimal, anything
    else the empty string. *)
Definition stringifyPrimitive (v : value) : string :=
  match v with
  | VStr s => s
  | VNum n => pretty n
  | VUndef => EmptyString
  end.

(** [querystring.stringify(o)] for an object of primitives. *)
Definition stringify (o : obj) : string :=
  String.concat "&"
    (map (fun kv => escape (fst kv) ++ "=" ++ escape (stringifyPrimitive (snd kv)))
       o).

End QueryString.

(** ** The world the classes run in *)

(** Requests to the upstream HTTP collaborator ([utils.sendWechatRequest]),
    identified by endpoint and query parameters. *)
Inductive request :=
| AccessTokenReq (appid secret : value)      (* grant_type=client_credential *)
| TicketReq (access_token : value)           (* type=jsapi *)
| OAuthCodeReq (appid secret : value) (code : string)
                                             (* grant_type=authorization_code *)
| OAuthRefreshReq (appid refresh_token : value)
                                             (* grant_type=refresh_token *)
| UserInfoReq (access_token openid : value).

(** A settled promise. *)
Inductive outcome (A : Type) :=
| Resolved (a : A)
| Rejected (reason : string).
Arguments Resolved {A} a.
Arguments Rejected {A} reason.

(** [StoreOAuthItem], the typed view of an OAuth token record. Fields the
    interface declares as numbers are [option Z], [None] when the property
    is missing; the others are [VUndef] when missing. *)
Record StoreOAuthItem := OAuthItem {
  key : value;
  access_token : value;
  refresh_token : value;
  openid : value;
  expires_in : option Z;
  expirationTime : option Z;
  createDate : option Z;
  modifyDate : option Z;
}.

Definition as_number (v : value) : option Z :=
  match v with VNum n => Some n | _ => None end.

(** The cast [data as unknown as StoreOAuthItem] of an upstream reply. *)
Definition asStoreOAuthItem (data : obj) : StoreOAuthItem :=
  OAuthItem (get "key" data) (get "access_token" data)
    (get "refresh_token" data) (get "openid" data)
    (as_number (get "expires_in" data))
    (as_number (get "expirationTime" data))
    (as_number (get "createDate" data))
    (as_number (get "modifyDate" data)).

(** [Object.assign] on two typed records: a property of [src] overrides. *)
Definition assignOAuthItem (target src : StoreOAuthItem) : StoreOAuthItem :=
  let pick (a b : value) := match b with VUndef => a | _ => b end in
  let pickn (a b : option Z) := match b with None => a | Some _ => b end in
  OAuthItem (pick (key target) (key src))
    (pick (access_token target) (access_token src))
    (pick (refresh_token target) (refresh_token src))
    (pick (openid target) (openid src))
    (pickn (expires_in target) (expires_in src))
    (pickn (expirationTime target) (expirationTime src))
    (pickn (createDate target) (createDate src))
    (pickn (modifyDate target) (modifyDate src)).

Definition emptyOAuthItem : StoreOAuthItem :=
  OAuthItem VUndef VUndef VUndef VUndef None None None None.

(** The credential store: the current global token record, the signature
    records by url and the OAuth records by key. *)
Record store := Store {
  globalToken : option obj;
  urls : gmap string obj;
  oauthTokens : gmap string StoreOAuthItem;
}.

Record world := World {
  clock : Z;                  (* what [Date.now()] and [new Date()] read *)
  rng : nat -> string;        (* successive random nonce strings *)
  drawn : nat;                (* how many were drawn so far *)
  wstore : store;
  refreshedTimes : Z;         (* manual refresh counter of the legacy class *)
  sent : list request;        (* upstream requests, oldest first *)
  upstream : list request -> request -> outcome obj;
                              (* the reply, given the requests sent before *)
  dateParse : string -> option Z;
                              (* [Date.parse] of the host: the time value of
                                 a date string, [None] for NaN *)
}.

Definition set_store (s : store) (w : world) : world :=
  World (clock w) (rng w) (drawn w) s (refreshedTimes w) (sent w) (upstream w)
    (dateParse w).

Definition set_refreshedTimes (n : Z) (w : world) : world :=
  World (clock w) (rng w) (drawn w) (wstore w) n (sent w) (upstream w)
    (dateParse w).

Definition set_sent (l : list request) (w : world) : world :=
  World (clock w) (rng w) (drawn w) (wstore w) (refreshedTimes w) l (upstream w)
    (dateParse w).

Definition set_drawn (n : nat) (w : world) : world :=
  World (clock w) (rng w) n (wstore w) (refreshedTimes w) (sent w) (upstream w)
    (dateParse w).

(** Asynchronous methods: a state transformer that settles. The clock is
    read from the world and stands still while one method runs. *)
Definition M (A : Type) : Type := world -> outcome A * world.

Definition ret {A} (a : A) : M A := fun w => (Resolved a, w).

Definition reject {A} (reason : string) : M A := fun w => (Rejected reason, w).

Definition bind {A B} (m : M A) (k : A -> M B) : M B :=
  fun w =>
    match m w with
    | (Resolved a, w') => k a w'
    | (Rejected r, w') => (Rejected r, w')
    end.

Notation "'do' x <- m ; k" := (bind m (fun x => k))
  (at level 10, x name, m at level 100, k at level 200).
Notation "'exec' m ; k" := (bind m (fun _ => k))
  (at level 10, m at level 100, k at level 200).

Definition now : M Z := fun w => (Resolved (clock w), w).

Definition random_string : M string :=
  fun w => (Resolved (rng w (drawn w)), set_drawn (S (drawn w)) w).

(** Modelled from the spec: [utils.sendWechatRequest] is not part of the
    sources at hand. Section 6: the request goes out to the upstream
    collaborator, whose reply settles the promise. *)
Definition sendWechatRequest (r : request) : M obj :=
  fun w => (upstream w (sent w) r, set_sent (sent w ++ [r]) w).

(** *** The store interface

    The store classes ([store/Store], [store/FileStore]) are not part of
    the sources at hand. Their methods follow sections 4.1 and 4.2 of the
    specification: in-memory maps, reads return the record or nothing,
    [save] writes the record under the given key, [update] merges the
    partial fields into the record under the key and returns the merged
    record. *)
Module StoreOps.

(** Modelled from the spec: [store.getGlobalToken] (legacy name
    [getGlobalTokenInfo]), missing from the sources; it reads the current
    global token record. *)
Definition getGlobalToken : M (option obj) :=
  fun w => (Resolved (globalToken (wstore w)), w).

(** Modelled from the spec: [store.updateGlobalToken] (legacy name
    [updateGlobalTokenInfo]), missing from the sources; it merges the
    partial fields and persists. *)
Definition updateGlobalToken (info : obj) : M obj :=
  fun w =>
    let s := wstore w in
    let merged := assign (default [] (globalToken s)) info in
    (Resolved merged, set_store (Store (Some merged) (urls s) (oauthTokens s)) w).

(** Modelled from the spec: [store.isSignatureExisting] (legacy name
    [isSignatureExisted]), missing from the sources; [signatureExists(url)]. *)
Definition isSignatureExisting (url : string) : M bool :=
  fun w => (Resolved (bool_decide (is_Some (urls (wstore w) !! url))), w).

(** Modelled from the spec: [store.getSignature] (legacy name
    [getCachedSignatureByUrl]), missing from the sources; the record kept
    for the url, if any. *)
Definition getSignature (url : string) : M (option obj) :=
  fun w => (Resolved (urls (wstore w) !! url), w).

(** Modelled from the spec: [store.saveSignature] (legacy name
    [setNewSignature]), missing from the sources; it keeps the record
    under the given name. *)
Definition saveSignature (name : string) (sig : obj) : M obj :=
  fun w =>
    let s := wstore w in
    (Resolved sig,
     set_store (Store (globalToken s) (<[name := sig]> (urls s)) (oauthTokens s)) w).

(** Modelled from the spec: [store.updateSignature], missing from the
    sources; it merges the partial fields into the record kept under the
    url. *)
Definition updateSignature (url : string) (info : obj) : M obj :=
  fun w =>
    let s := wstore w in
    let merged := assign (default [] (urls s !! url)) info in
    (Resolved merged,
     set_store (Store (globalToken s) (<[url := merged]> (urls s)) (oauthTokens s)) w).

(** Modelled from the spec: [store.getOAuthAccessToken], missing from the
    sources; [getOAuthToken(key)]. *)
Definition getOAuthAccessToken (k : string) : M (option StoreOAuthItem) :=
  fun w => (Resolved (oauthTokens (wstore w) !! k), w).

(** Modelled from the spec: [store.saveOAuthAccessToken], missing from the
    sources; [saveOAuthToken(key, record)]. *)
Definition saveOAuthAccessToken (k : string) (info : StoreOAuthItem)
  : M StoreOAuthItem :=
  fun w =>
    let s := wstore w in
    (Resolved info,
     set_store (Store (globalToken s) (urls s) (<[k := info]> (oauthTokens s))) w).

(** Modelled from the spec: [store.updateOAuthAccessToken], missing from
    the sources; [updateOAuthToken(key, partial)] merges and persists. *)
Definition updateOAuthAccessToken (k : string) (info : StoreOAuthItem)
  : M StoreOAuthItem :=
  fun w =>
    let s := wstore w in
    let merged :=
      assignOAuthItem (default emptyOAuthItem (oauthTokens s !! k)) info in
    (Resolved merged,
     set_store (Store (globalToken s) (urls s) (<[k := merged]> (oauthTokens s))) w).

End StoreOps.

(** ** [utils] *)

Module Utils.

(** 1h 59m in milliseconds. *)
Definition REFRESH_INTERVAL : Z := 1000 * 119 * 60.

(** [new Date(d).getTime()]: the time value, [None] for NaN. A [Date] is
    represented by its time value; a string is read by [Date.parse], which
    the host provides; [undefined] gives an invalid date. *)
Definition getTime (parse : string -> option Z) (d : value) : option Z :=
  match d with
  | VNum t => Some t
  | VStr s => parse s
  | VUndef => None
  end.

(** Modelled from the spec: [utils.isExpired] is not part of the sources
    at hand. Section 3: a record is valid only while
    [now - modifyDate < TTL], with TTL = 1h59m; it is expired otherwise.
    The time value of [modifyDate] is read as the legacy class reads it,
    [new Date(modifyDate).getTime()]. *)
Definition isExpired (parse : string -> option Z) (clock : Z)
    (modifyDate : value) : bool :=
  match getTime parse modifyDate with
  | Some t => negb (clock - t <? REFRESH_INTERVAL)%Z
  | None => true
  end.

(** Modelled from the spec: [utils.timestamp] is not part of the sources
    at hand. Section 4.5: the current Unix time in seconds, as a string;
    the legacy class writes [parseInt(new Date().getTime() / 1000) + '']. *)
Definition timestamp (clock : Z) : string := pretty (Z.quot clock 1000).

(** Modelled from the spec: [utils.genSHA1] is not part of the sources at
    hand; it is the SHA-1 hex digest of the string. *)
Definition genSHA1 (content : string) : string := SHA1.hex content.

(** Modelled from the spec: [utils.paramsToString] is not part of the
    sources at hand. It serializes the own properties of the object it is
    given as [key1=value1&key2=value2...], keys sorted lexicographically
    and written in lower case (the fixture of the specification spells
    [noncestr]), values as they are, without URL-encoding. *)
Definition paramsToString (args : obj) : string :=
  let ks := sort_by String.leb (keys args) in
  String.concat "&"
    (map (fun k => toLowerCase k ++ "=" ++ to_string (get k args)) ks).

End Utils.

(** The instance configuration ([this.options], [this.wechatConfig]). *)
Record WeChatOptions := Options {
  appId : value;
  appSecret : value;
  wechatToken : value;
}.

(** ** The legacy JavaScript class [JSSDK] *)

Module LegacyJSSDK.

Section Instance.
Variable wechatConfig : WeChatOptions.

  (** 1h 59m, token is only valid within 2 hours *)
Definition REFRESH_INTERVAL : Z := 1000 * 119 * 60.

Definition isTokenExpired (parse : string -> option Z) (clock : Z)
    (modifyDate : value) : bool :=
    match Utils.getTime parse modifyDate with
    | Some t => (clock - t >? REFRESH_INTERVAL)%Z
    | None => false
    end.

  (** [Math.random().toString(36).substr(2, 15)] *)
Definition createNonceStr : M string := random_string.

Definition signatureResult (reply : option obj) : obj :=
    match reply with
    | None => []
    | Some r =>
        [("timestamp", get "timestamp" r);
         ("nonceStr", get "nonceStr" r);
         ("signature", get "signature" r);
         ("url", get "url" r)]
    end.

  (** [url.indexOf(temp.hash)] converts a [null] hash to the string
      ["null"] before searching. *)
Definition normalizeUrl (url : string) : string :=
    let hash := parse_hash url in
    let hashIndex := indexOf url (default "null" hash) in
    if (hashIndex >? 0)%Z then substring0 url hashIndex else url.

Definition verifySignature (query : obj) : bool :=
    let keys :=
      [wechatToken wechatConfig; get "timestamp" query; get "nonce" query] in
    let str := join_empty (array_sort keys) in
    let str := Utils.genSHA1 str in
    strict_eq (VStr str) (get "signature" query).

Definition getAccessToken : M obj :=
    sendWechatRequest
      (AccessTokenReq (appId wechatConfig) (appSecret wechatConfig)).

Definition getWechatTicket (accessToken : value) : M obj :=
    sendWechatRequest (TicketReq accessToken).

Definition updateAccessTokenOrTicketGlobally (token ticket : value) : M obj :=
    do t <- now;
    let info := [("modifyDate", VNum t)] in
    let info := if truthy token then set "accessToken" token info else info in
    let info := if truthy ticket then set "jsapi_ticket" ticket info else info in
    StoreOps.updateGlobalToken info.

  (** [force || this.refreshedTimes++] *)
Definition count_refresh (force : bool) : M unit :=
    fun w =>
      (Resolved tt,
       if force then w else set_refreshedTimes (refreshedTimes w + 1) w).

Definition getNewTokenAndTicket (force : bool) : M obj :=
    exec count_refresh force;
    fun w =>
      if negb force && (refreshedTimes w >? 5)%Z
      then reject "maximum manual refresh threshold reached!" w
      else
        (do result <- getAccessToken;
         let accessToken := get "access_token" result in
         do ticketResult <- getWechatTicket accessToken;
         updateAccessTokenOrTicketGlobally accessToken (get "ticket" ticketResult)) w.

Definition prepareNewSignature : M obj :=
    do globalToken <- StoreOps.getGlobalToken;
    fun w =>
      match globalToken with
      | None => getNewTokenAndTicket true w
      | Some g =>
          if negb (truthy (get "accessToken" g))
             || isTokenExpired (dateParse w) (clock w) (get "modifyDate" g)
          then getNewTokenAndTicket true w
          else ret g w
      end.

Definition genSignature (ticket : value) (url : string) (accessToken : value)
    : M obj :=
    do nonce <- createNonceStr;
    do t <- now;
    let r :=
      [("jsapi_ticket", ticket);
       ("nonceStr", VStr nonce);
       ("timestamp", VStr (pretty (Z.quot t 1000)));
       ("url", VStr (normalizeUrl url))] in
    let originalStr := Utils.paramsToString r in
    let r := set "signature" (VStr (Utils.genSHA1 originalStr)) r in
    let r := set "accessToken" accessToken r in
    ret r.

Definition updateSignatureByUrl (url : string) (info : obj) : M obj :=
    let url := normalizeUrl url in
    do t <- now;
    let info := set "modifyDate" (VNum t) info in
    let info := del "url" info in
    let info := del "signatureName" info in
    StoreOps.updateSignature url info.

Definition saveNewSignature (info : obj) : M obj :=
    do t <- now;
    let signature := assign [] info in
    let signature := set "createDate" (VNum t) signature in
    let signature := set "modifyDate" (get "createDate" signature) signature in
    do existing <- StoreOps.isSignatureExisting (to_string (get "url" signature));
    if (existing : bool)
    then updateSignatureByUrl (to_string (get "url" signature)) signature
    else StoreOps.saveSignature
           (to_string (get "signatureName" signature)) signature.



Definition getCachedUrlSignature (url : string) : M obj :=
  let url := normalizeUrl url in
  do signature <- StoreOps.getSignature url;
  ret (signatureResult signature).

Definition getCachedGlobalToken : M (option obj) := StoreOps.getGlobalToken.

End Instance.

(** The callback of [setInterval(() => this.refreshedTimes = 0, 1000 * 7200)]. *)
Definition clearCounter (w : world) : world := set_refreshedTimes 0 w.

End LegacyJSSDK.

(** ** The TypeScript class [JSSDK] *)

Module JSSDK.

Section Instance.
Variable options : WeChatOptions.

Definition isTokenExpired (parse : string -> option Z) (clock : Z)
    (modifyDate : value) : bool :=
    Utils.isExpired parse clock modifyDate.

  (** [utils.nonceStr()], a fresh random alphanumeric string. *)
Definition createNonceStr : M string := random_string.

Definition filterSignature (originalSignatureObj : option obj) : obj :=
    match originalSignatureObj with
    | None => []
    | Some o =>
        [("appId", appId options);
         ("timestamp", get "timestamp" o);
         ("nonceStr", get "nonceStr" o);
         ("signature", get "signature" o);
         ("url", get "url" o)]
    end.

Definition normalizeUrl (url : string) : string :=
    let hash := parse_hash url in
    let hashIndex := indexOf url (default "" hash) in
    if (hashIndex >? 0)%Z then substring0 url hashIndex else url.

Definition generateSignature (url : string) (accessToken ticket : value)
    : M obj :=
    do nonce <- createNonceStr;
    do t <- now;
    let r :=
      [("jsapi_ticket", ticket);
       ("nonceStr", VStr nonce);
       ("timestamp", VStr (Utils.timestamp t));
       ("url", VStr (normalizeUrl url));
       ("signature", VStr "");
       ("accessToken", VStr "")] in
    let originalStr := Utils.paramsToString r in
    let r := set "signature" (VStr (Utils.genSHA1 originalStr)) r in
    let r := set "accessToken" accessToken r in
    ret r.

Definition verifySignature (query : obj) : bool :=
    let keys :=
      [wechatToken options; get "timestamp" query; get "nonce" query] in
    let str := join_empty (array_sort keys) in
    let str := Utils.genSHA1 str in
    strict_eq (VStr str) (get "signature" query).

  (** [utils.getGlobalAccessToken(appId, appSecret, accessTokenUrl)] *)
Definition getAccessToken : M obj :=
    sendWechatRequest (AccessTokenReq (appId options) (appSecret options)).

Definition getJsApiTicket (accessToken : value) : M obj :=
    sendWechatRequest (TicketReq accessToken).

Definition updateAccessTokenOrTicketGlobally (token ticket : value) : M obj :=
    do t <- now;
    let info := [("modifyDate", VNum t)] in
    let info := if truthy token then set "accessToken" token info else info in
    let info := if truthy ticket then set "jsapi_ticket" ticket info else info in
    StoreOps.updateGlobalToken info.

  (** Modelled from the spec: [store.prepareGlobalToken] is not part of the
      sources at hand. Section 4.4: read the cached record; if present and
      unexpired, return it; otherwise fetch a new access token, then a new
      ticket with that token, then persist both via [updateGlobalToken]. *)
Definition prepareGlobalToken : M obj :=
    do cached <- StoreOps.getGlobalToken;
    fun w =>
      let refresh :=
        do result <- getAccessToken;
        do ticketResult <- getJsApiTicket (get "access_token" result);
        updateAccessTokenOrTicketGlobally
          (get "access_token" result) (get "ticket" ticketResult) in
      match cached with
      | Some g =>
          if Utils.isExpired (dateParse w) (clock w) (get "modifyDate" g)
          then refresh w else ret g w
      | None => refresh w
      end.

Definition updateSignature (url : string) (info : obj) : M obj :=
    let url := normalizeUrl url in
    do t <- now;
    let info := set "modifyDate" (VNum t) info in
    let info := del "createDate" info in
    let info := del "signatureName" info in
    StoreOps.updateSignature url info.

Definition saveSignature (info : obj) : M obj :=
    let signature := assign [] info in
    do t <- now;
    let signature := set "createDate" (VNum t) signature in
    let signature := set "modifyDate" (get "createDate" signature) signature in
    do existing <- StoreOps.isSignatureExisting (to_string (get "url" signature));
    if (existing : bool)
    then updateSignature (to_string (get "url" signature)) signature
    else if negb (truthy (get "signatureName" signature))
    then reject "signature.signatureName is undefined"
    else StoreOps.saveSignature
           (to_string (get "signatureName" signature)) signature.

Definition createSignature (url : string) : M obj :=
    do data <- prepareGlobalToken;
    do r <- generateSignature url (get "accessToken" data)
                              (get "jsapi_ticket" data);
    let r := set "signatureName" (get "url" r) r in
    do signature <- saveSignature r;
    ret (filterSignature (Some signature)).

Definition getSignature (url : string) (forceNewSignature : bool) : M obj :=
    let url := normalizeUrl url in
    do signature <- StoreOps.getSignature url;
    fun w =>
      match signature with
      | Some s =>
          if negb forceNewSignature
             && negb (isTokenExpired (dateParse w) (clock w)
                        (nullish (get "modifyDate" s) (VNum 0)))
          then ret (filterSignature (Some s)) w
          else createSignature url w
      | None => createSignature url w
      end.


Definition getGlobalTokenAndTicket : M obj :=
  do result <- prepareGlobalToken;
  let accessToken := get "accessToken" result in
  do ticketResult <- getJsApiTicket accessToken;
  updateAccessTokenOrTicketGlobally accessToken (get "ticket" ticketResult).

End Instance.

End JSSDK.

(** ** The class [OAuth] *)

Module OAuth.

(** [if (!tokenInfo.expires_in) return tokenInfo;
    tokenInfo.expirationTime = now + (tokenInfo.expires_in - 60) * 1000] *)
Definition setAccessTokenExpirationTime (clock : Z) (tokenInfo : StoreOAuthItem)
  : StoreOAuthItem :=
  match expires_in tokenInfo with
  | None => tokenInfo
  | Some e =>
      if (e =? 0)%Z then tokenInfo
      else
        OAuthItem (key tokenInfo) (access_token tokenInfo)
          (refresh_token tokenInfo) (openid tokenInfo) (expires_in tokenInfo)
          (Some (clock + (e - 60) * 1000)%Z)
          (createDate tokenInfo) (modifyDate tokenInfo)
  end.

(** [if (!tokenInfo.expirationTime) return true;
    return Date.now() - tokenInfo.expirationTime >= 0] *)
Definition isAccessTokenExpired (clock : Z) (tokenInfo : StoreOAuthItem) : bool :=
  match expirationTime tokenInfo with
  | None => true
  | Some e => if (e =? 0)%Z then true else (clock - e >=? 0)%Z
  end.

Section Instance.
Variable options : WeChatOptions.

Definition getAccessTokenRemotely (code : string) (k : value)
    : M StoreOAuthItem :=
    do reply <- sendWechatRequest
                  (OAuthCodeReq (appId options) (appSecret options) code);
    do t <- now;
    let data := asStoreOAuthItem reply in
    let data := setAccessTokenExpirationTime t data in
    let oauthKey := or_else k (openid data) in
    let data :=
      OAuthItem oauthKey (access_token data) (refresh_token data) (openid data)
        (expires_in data) (expirationTime data) (Some t) (Some t) in
    StoreOps.saveOAuthAccessToken (to_string oauthKey) data.

Definition refreshAccessToken (k : value) (tokenInfo : StoreOAuthItem)
    : M StoreOAuthItem :=
    do reply <- sendWechatRequest
                  (OAuthRefreshReq (appId options) (refresh_token tokenInfo));
    do t <- now;
    let data := asStoreOAuthItem reply in
    let data := setAccessTokenExpirationTime t data in
    let oauthKey := or_else k (openid data) in
    let data :=
      OAuthItem (key data) (access_token data) (refresh_token data)
        (openid data) (expires_in data) (expirationTime data)
        (createDate data) (Some t) in
    StoreOps.updateOAuthAccessToken (to_string oauthKey) data.

Definition getAccessToken (code : value) (k : value) : M StoreOAuthItem :=
    if truthy code then getAccessTokenRemotely (to_string code) k
    else
      do tokenInfo <- StoreOps.getOAuthAccessToken (to_string k);
      fun w =>
        match tokenInfo with
        | None => reject "please get new code!" w
        | Some info =>
            if isAccessTokenExpired (clock w) info
            then refreshAccessToken k info w
            else ret info w
        end.

(** The own properties of a typed token record, for [Object.assign]. *)
Definition itemToObj (t : StoreOAuthItem) : obj :=
  let str (k : string) (v : value) : obj :=
    match v with VUndef => [] | _ => [(k, v)] end in
  let num (k : string) (n : option Z) : obj :=
    match n with None => [] | Some z => [(k, VNum z)] end in
  (str "key" (key t) ++ str "access_token" (access_token t)
   ++ str "refresh_token" (refresh_token t) ++ str "openid" (openid t)
   ++ num "expires_in" (expires_in t)
   ++ num "expirationTime" (expirationTime t)
   ++ num "createDate" (createDate t) ++ num "modifyDate" (modifyDate t))%list.

Definition getUserInfoRemotely (tokenInfo : StoreOAuthItem) (withToken : bool)
  : M obj :=
  do data <- sendWechatRequest
               (UserInfoReq (access_token tokenInfo) (openid tokenInfo));
  ret (if withToken then assign (assign [] (itemToObj tokenInfo)) data
       else data).

Definition getUserBaseInfo (code : value) (k : value) : M StoreOAuthItem :=
  getAccessToken code k.

Definition getUserInfo (code : value) (k : value) (withToken : bool) : M obj :=
  do tokenInfo <- getAccessToken code k;
  getUserInfoRemotely tokenInfo withToken.

End Instance.

(** The part of the configuration that the redirect urls use. *)
Record OAuthUrlOptions := UrlOptions {
  oAuthUrl : string;
  oAuthState : value;
  wechatRedirectUrl : value;
  wechatRedirectHost : value;
}.

Definition REDIRECT_HASH : string := "#wechat_redirect".
Definition scope_BASE : string := "snsapi_base".
Definition scope_USER_INFO : string := "snsapi_userinfo".
Definition oAuthDefaultParams : obj :=
  [("redirect_uri", VStr EmptyString); ("response_type", VStr "code")].

Section Urls.
Variable options : WeChatOptions.
Variable urlOptions : OAuthUrlOptions.

Definition generateOAuthUrl (redirectUrl : string) (scope state : value)
  : string :=
  let url := oAuthUrl urlOptions ++ "?" in
  let tempObj :=
    [("appid", appId options); ("scope", VStr scope_USER_INFO)] in
  let oauthState :=
    or_else (or_else state (oAuthState urlOptions)) (VStr "userAuth") in
  let tempOAuthParams :=
    assign (assign tempObj oAuthDefaultParams)
      [("redirect_uri", VStr redirectUrl); ("state", oauthState)] in
  let tempOAuthParams :=
    if truthy scope then set "scope" scope tempOAuthParams
    else tempOAuthParams in
  let keys := sort_by String.leb (keys tempOAuthParams) in
  let oauthParams :=
    fold_left (fun o k => set k (get k tempOAuthParams) o) keys [] in
  let url := url ++ QueryString.stringify oauthParams in
  url ++ REDIRECT_HASH.

Definition generateDefaultOAuthUrl : string * string :=
  let temp := wechatRedirectUrl urlOptions in
  let temp :=
    if negb (truthy temp)
    then VStr (to_string (wechatRedirectHost urlOptions)
               ++ "/wechat/oauth-callback")
    else temp in
  (generateOAuthUrl (to_string temp) (VStr scope_USER_INFO) VUndef,
   generateOAuthUrl (to_string temp) (VStr scope_BASE) VUndef).

End Urls.

End OAuth.

(** * Vocabulary of the statements *)

(** [no_hash p]: the character [#] does not occur in [p]. *)
Fixpoint no_hash (p : string) : bool :=
  match p with
  | EmptyString => true
  | String c rest => negb (Ascii.eqb c "#") && no_hash rest
  end.

(** [escape_free s]: [url.parse] escapes no character of [s]. *)
Fixpoint escape_free (s : string) : bool :=
  match s with
  | EmptyString => true
  | String c rest =>
      match autoEscape c with
      | Some _ => false
      | None => escape_free rest
      end
  end.

(** [plain f]: a fragment without whitespace and without escaped
    characters, which [url.parse] hands back as it is written. *)
Fixpoint plain (f : string) : bool :=
  match f with
  | EmptyString => true
  | String c rest =>
      negb (isWs c)
      && match autoEscape c with Some _ => false | None => true end
      && plain rest
  end.

(** The number of characters that are not whitespace. *)
Fixpoint weight (s : string) : nat :=
  match s with
  | EmptyString => 0%nat
  | String c rest => ((if isWs c then 0 else 1) + weight rest)%nat
  end.

(** The [signature] property of a resolved record. *)
Definition signature_of (res : outcome obj * world) : value :=
  match fst res with
  | Resolved r => get "signature" r
  | Rejected _ => VUndef
  end.

(** The string that [verifySignature] hashes: the three values sorted as
    [Array.prototype.sort] does, then joined. *)
Definition sorted_concat (options : WeChatOptions) (query : obj) : string :=
  join_empty
    (array_sort
       [wechatToken options; get "timestamp" query; get "nonce" query]).

(** What the legacy [getNewTokenAndTicket] does once past the counter. *)
Definition fetchAndStore (cfg : WeChatOptions) : M obj :=
  do result <- LegacyJSSDK.getAccessToken cfg;
  do ticketResult <-
    LegacyJSSDK.getWechatTicket (get "access_token" result);
  LegacyJSSDK.updateAccessTokenOrTicketGlobally
    (get "access_token" result) (get "ticket" ticketResult).

(** The world after a manual refresh, however it settles. *)
Definition manual (cfg : WeChatOptions) (w : world) : world :=
  snd (LegacyJSSDK.getNewTokenAndTicket cfg false w).

(** [window cfg n w w']: within one counter window (the timer callback does
    not run), the instance goes from [w] to [w'] with exactly [n] manual
    refreshes, interleaved with any other activity; other activity does
    not write the counter. *)
Inductive window (cfg : WeChatOptions) : nat -> world -> world -> Prop :=
| window_start w : window cfg 0 w w
| window_manual n w w' :
    window cfg n w w' -> window cfg (S n) w (manual cfg w')
| window_other n w w' w'' :
    window cfg n w w' -> refreshedTimes w'' = refreshedTimes w' ->
    window cfg n w w''.

(** The properties a client-side caller gets. *)
Definition client_fields : list string :=
  ["appId"; "timestamp"; "nonceStr"; "signature"; "url"].

(** Time passes between two calls. *)
Definition set_clock (t : Z) (w : world) : world :=
  World t (rng w) (drawn w) (wstore w) (refreshedTimes w) (sent w) (upstream w)
    (dateParse w).

(** The property [field] of the signature record stored under [k]. *)
Definition stored_field (w : world) (k field : string) : option value :=
  get field <$> urls (wstore w) !! k.




(** The scope and the state a redirect url ends up with. *)
Definition effective_scope (scope : value) : string :=
  if truthy scope then QueryString.stringifyPrimitive scope
  else OAuth.scope_USER_INFO.

Definition effective_state (urlOptions : OAuth.OAuthUrlOptions)
    (state : value) : string :=
  QueryString.stringifyPrimitive
    (or_else (or_else state (OAuth.oAuthState urlOptions)) (VStr "userAuth")).

(** The order [Array.prototype.sort] puts strings in. *)
Definition string_le (a b : string) : Prop := String.leb a b = true.

(** * Sample configurations and worlds *)

(** A [Date.parse] that reads the format [Date.prototype.toISOString]
    writes, [YYYY-MM-DDTHH:mm:ss.sssZ], which is what a store that
    serializes its records to JSON hands back, and no other string. *)
Definition digit (c : ascii) : option Z :=
  let n := nat_of_ascii c in
  if ((48 <=? n) && (n <=? 57))%nat then Some (Z.of_nat (n - 48)) else None.

Fixpoint number (acc : Z) (s : string) : option Z :=
  match s with
  | EmptyString => Some acc
  | String c rest =>
      match digit c with
      | Some d => number (10 * acc + d) rest
      | None => None
      end
  end.

(** Days from 1970-01-01 to the given day of the proleptic Gregorian
    calendar. *)
Definition days_from_civil (y m d : Z) : Z :=
  let y := (if m <=? 2 then y - 1 else y)%Z in
  let era := (y / 400)%Z in
  let yoe := (y - era * 400)%Z in
  let doy := ((153 * (if m >? 2 then m - 3 else m + 9) + 2) / 5 + d - 1)%Z in
  let doe := (yoe * 365 + yoe / 4 - yoe / 100 + doy)%Z in
  (era * 146097 + doe - 719468)%Z.

Definition days_in_month (y m : Z) : Z :=
  if (m =? 2)%Z
  then if ((y mod 4 =? 0) && (negb (y mod 100 =? 0) || (y mod 400 =? 0)))%Z
       then 29%Z else 28%Z
  else if ((m =? 4) || (m =? 6) || (m =? 9) || (m =? 11))%Z then 30%Z
       else 31%Z.

Definition iso_date_def (s : string) : option Z :=
  let part (i n : nat) := number 0 (String.substring i n s) in
  let sep (i : nat) (c : string) := String.eqb (String.substring i 1 s) c in
  if negb ((String.length s =? 24)%nat
           && sep 4%nat "-" && sep 7%nat "-" && sep 10%nat "T"
           && sep 13%nat ":" && sep 16%nat ":" && sep 19%nat "."
           && sep 23%nat "Z")
  then None
  else
    match part 0%nat 4%nat, part 5%nat 2%nat, part 8%nat 2%nat,
          part 11%nat 2%nat, part 14%nat 2%nat, part 17%nat 2%nat,
          part 20%nat 3%nat with
    | Some y, Some m, Some d, Some h, Some mi, Some sec, Some ms =>
        if ((1 <=? m) && (m <=? 12) && (1 <=? d) && (d <=? days_in_month y m)
            && (h <=? 23) && (mi <=? 59) && (sec <=? 59))%Z
        then Some ((((days_from_civil y m d * 24 + h) * 60 + mi) * 60 + sec)
                   * 1000 + ms)%Z
        else None
    | _, _, _, _, _, _, _ => None
    end.

(** The parser is sealed, so that a state that carries it stays small when
    it is computed; [iso_date_unseal] opens it. *)
Definition iso_date_aux : seal (@iso_date_def).
Proof. by eexists. Qed.

Definition iso_date : string -> option Z := unseal iso_date_aux.

Definition iso_date_unseal : iso_date = iso_date_def := seal_eq iso_date_aux.


Definition sample_options : WeChatOptions :=
  Options (VStr "wx-app") (VStr "wx-secret") (VStr "wx-token").

Definition no_upstream : list request -> request -> outcome obj :=
  fun _ _ => Rejected "offline".

Definition upstream_ok : list request -> request -> outcome obj :=
  fun _ r =>
    match r with
    | AccessTokenReq _ _ =>
        Resolved [("access_token", VStr "NEW-TOKEN"); ("expires_in", VNum 7200)]
    | TicketReq _ => Resolved [("ticket", VStr "NEW-TICKET")]
    | _ => Rejected "offline"
    end.

Definition upstream_code_reply (reply : obj)
  : list request -> request -> outcome obj :=
  fun _ r =>
    match r with
    | OAuthCodeReq _ _ _ => Resolved reply
    | _ => Rejected "offline"
    end.

Definition empty_store : store := Store None ∅ ∅.

Definition fresh_world (clock : Z) : world :=
  World clock (fun _ => "n456") 0 empty_store 0 [] no_upstream iso_date.

(** The fixture of the specification: ticket [t123], nonce [n456], clock at
    1400000000 seconds, page [http://example.com/page]. *)
Definition fixture_world : world := fresh_world 1400000000000.

Definition fixture_canonical : string :=
  "jsapi_ticket=t123&noncestr=n456&timestamp=1400000000&url=http://example.com/page".

Definition fixture_six_pairs : string :=
  "accesstoken=&jsapi_ticket=t123&noncestr=n456&signature=&timestamp=1400000000&url=http://example.com/page".

Definition cached_token (modified : Z) : obj :=
  [("accessToken", VStr "TOKEN"); ("jsapi_ticket", VStr "TICKET");
   ("modifyDate", VNum modified)].

(** The same record as a store that serializes to JSON hands it back. *)
Definition cached_token_json : obj :=
  [("accessToken", VStr "TOKEN"); ("jsapi_ticket", VStr "TICKET");
   ("modifyDate", VStr "2016-12-01T09:25:43.781Z")].

Definition token_world (clock : Z) (cached : option obj)
    (up : list request -> request -> outcome obj) : world :=
  World clock (fun _ => "n456") 0 (Store cached ∅ ∅) 0 [] up iso_date.



Definition sig_info (url name signature : string) : obj :=
  [("url", VStr url); ("signatureName", VStr name);
   ("signature", VStr signature)].

Definition sample_token : StoreOAuthItem :=
  OAuthItem VUndef (VStr "ACCESS") (VStr "REFRESH") (VStr "openid-1")
    (Some 7200%Z) None None None.

Definition oauth_world (cached : gmap string StoreOAuthItem)
    (up : list request -> request -> outcome obj) : world :=
  World 1000000 (fun _ => "n456") 0 (Store None ∅ cached) 0 [] up iso_date.

Definition reply_without_expires_in : obj :=
  [("access_token", VStr "ACCESS"); ("refresh_token", VStr "REFRESH");
   ("openid", VStr "openid-1")].

Definition reply_with_expires_in : obj :=
  [("access_token", VStr "ACCESS"); ("expires_in", VNum 7200);
   ("refresh_token", VStr "REFRESH"); ("openid", VStr "openid-1")].


(** The reply of the upstream to a refresh request. *)
Definition refresh_reply : obj :=
  [("access_token", VStr "FRESH"); ("expires_in", VNum 7200);
   ("refresh_token", VStr "REFRESH-2"); ("openid", VStr "openid-1")].

(** An upstream that answers refresh and profile requests only. *)
Definition upstream_refresh_ok : list request -> request -> outcome obj :=
  fun _ r =>
    match r with
    | OAuthRefreshReq _ _ => Resolved refresh_reply
    | UserInfoReq _ _ =>
        Resolved [("openid", VStr "openid-1"); ("nickname", VStr "Ann")]
    | _ => Rejected "offline"
    end.

(** The url options of an instance with no state and no redirect url
    configured. *)
Definition sample_url_options : OAuth.OAuthUrlOptions :=
  OAuth.UrlOptions "https://open.weixin.qq.com/connect/oauth2/authorize"
    VUndef VUndef (VStr "http://127.0.0.1").

(** * Properties *)

(** ** Sanity checks of the model *)

Example sha1_abc :
  SHA1.hex "abc" = "a9993e364706816aba3e25717850c26c9cd0d89d".
Proof. vm_compute. reflexivity. Qed.

Example sha1_empty :
  SHA1.hex "" = "da39a3ee5e6b4b0d3255bfef95601890afd80709".
Proof. vm_compute. reflexivity. Qed.

Example sha1_two_blocks :
  SHA1.hex "abcdbcdecdefdefgefghfghighijhijkijkljklmklmnlmnomnopnopq"
  = "84983e441c3bd26ebaae4aa1f95129e5e54670f1".
Proof. vm_compute. reflexivity. Qed.

Example array_sort_ex :
  array_sort [VStr "tok"; VUndef; VStr "1400"; VStr "abc"]
  = [VStr "1400"; VStr "abc"; VStr "tok"; VUndef].
Proof. reflexivity. Qed.

Example toLowerCase_ex : toLowerCase "nonceStr" = "noncestr".
Proof. reflexivity. Qed.

Example parse_hash_escaped :
  parse_hash "http://a.com/p#a b" = Some "#a%20b"
  /\ parse_hash "http://a.com/p#it's" = Some "#it%27s"
  /\ parse_hash "  http://a.com/p#top  " = Some "#top"
  /\ parse_hash "javascript:void(0)#a b" = Some "#a b".
Proof. vm_compute. repeat split. Qed.

Example iso_date_ex :
  iso_date "2016-12-01T09:25:43.781Z" = Some 1480584343781%Z
  /\ iso_date "1970-01-01T00:00:00.000Z" = Some 0%Z
  /\ iso_date "2016-02-30T00:00:00.000Z" = None.
Proof. rewrite iso_date_unseal. vm_compute. repeat split. Qed.

Example parse_hash_ex : parse_hash "http://a.com/p?q=1#top" = Some "#top".
Proof. reflexivity. Qed.

Example paramsToString_ex :
  Utils.paramsToString [("url", VStr "u"); ("nonceStr", VStr "n")]
  = "noncestr=n&url=u".
Proof. reflexivity. Qed.

Example timestamp_ex : Utils.timestamp 1400000000999 = "1400000000".
Proof. reflexivity. Qed.

(** ** Objects: reading after writing *)

Section ObjectLemmas.
Implicit Types (k : string) (v : value) (o : obj).

Lemma lookup_set_eq k v o : JS.lookup k (set k v o) = Some v.
Proof.
  induction o as [|[k' v'] o IH]; simpl.
  - now rewrite String.eqb_refl.
  - destruct (String.eqb k k') eqn:E; simpl; rewrite ?String.eqb_refl, ?E; auto.
Qed.

Lemma lookup_set_ne k k' v o :
  k <> k' -> JS.lookup k (set k' v o) = JS.lookup k o.
Proof.
  intros Hne. induction o as [|[k0 v0] o IH]; simpl.
  - destruct (String.eqb_spec k k'); [contradiction|reflexivity].
  - destruct (String.eqb_spec k' k0) as [->|Hk0]; simpl.
    + destruct (String.eqb_spec k k0); [contradiction|reflexivity].
    + destruct (String.eqb_spec k k0); [reflexivity|exact IH].
Qed.

Lemma lookup_del_eq k o : JS.lookup k (del k o) = None.
Proof.
  induction o as [|[k' v'] o IH]; simpl; [reflexivity|].
  destruct (String.eqb k k') eqn:E; simpl; rewrite ?E; exact IH.
Qed.

Lemma lookup_del_ne k k' o :
  k <> k' -> JS.lookup k (del k' o) = JS.lookup k o.
Proof.
  intros Hne. induction o as [|[k0 v0] o IH]; simpl; [reflexivity|].
  destruct (String.eqb_spec k' k0) as [->|Hk0]; simpl.
  - rewrite IH. destruct (String.eqb_spec k k0); [contradiction|reflexivity].
  - destruct (String.eqb_spec k k0); [reflexivity|exact IH].
Qed.

(** [Object.assign] leaves alone what the source does not carry. *)
Lemma lookup_assign_absent k target src :
  JS.lookup k src = None -> JS.lookup k (assign target src) = JS.lookup k target.
Proof.
  unfold assign. revert target.
  induction src as [|[k' v'] src IH]; intros target Hk; simpl; [reflexivity|].
  simpl in Hk. destruct (String.eqb_spec k k') as [->|Hne]; [discriminate|].
  rewrite (IH _ Hk). now apply lookup_set_ne.
Qed.

Lemma lookup_absent k o : k ∉ keys o -> JS.lookup k o = None.
Proof.
  induction o as [|[k' v'] o IH]; simpl; intros Hk; [reflexivity|].
  apply not_elem_of_cons in Hk as [Hne Hk].
  destruct (String.eqb_spec k k'); [contradiction|auto].
Qed.

(** For a source with distinct property names, [Object.assign] takes
    every property the source carries. *)
Lemma lookup_assign k target src :
  NoDup (keys src) ->
  JS.lookup k (assign target src)
  = match JS.lookup k src with
    | Some v => Some v
    | None => JS.lookup k target
    end.
Proof.
  unfold assign. revert target.
  induction src as [|[k' v'] src IH]; intros target Hnd; simpl;
    [reflexivity|].
  simpl in Hnd. apply NoDup_cons in Hnd as [Hk' Hnd].
  rewrite (IH _ Hnd).
  destruct (String.eqb_spec k k') as [->|Hne].
  - rewrite (lookup_absent k' src Hk'). apply lookup_set_eq.
  - destruct (JS.lookup k src); [reflexivity|].
    now apply lookup_set_ne.
Qed.

Lemma get_set_eq k v o : get k (set k v o) = v.
Proof. unfold get. now rewrite lookup_set_eq. Qed.

Lemma get_set_ne k k' v o : k <> k' -> get k (set k' v o) = get k o.
Proof. intros H. unfold get. now rewrite lookup_set_ne. Qed.

Lemma get_del_eq k o : get k (del k o) = VUndef.
Proof. unfold get. now rewrite lookup_del_eq. Qed.

Lemma get_del_ne k k' o : k <> k' -> get k (del k' o) = get k o.
Proof. intros H. unfold get. now rewrite lookup_del_ne. Qed.

Lemma get_assign_absent k target src :
  JS.lookup k src = None -> get k (assign target src) = get k target.
Proof. intros H. unfold get. now rewrite lookup_assign_absent. Qed.

(** A fresh copy [Object.assign({}, info)] reads like [info]. *)
Lemma get_copy k (info : obj) :
  NoDup (keys info) -> get k (assign [] info) = get k info.
Proof.
  intros Hnd. unfold get. rewrite (lookup_assign k [] info Hnd).
  destruct (JS.lookup k info); reflexivity.
Qed.

End ObjectLemmas.


(** ** [url.parse] and [normalizeUrl] *)

Lemma from_hash_none u : no_hash u = true -> from_hash u = None.
Proof.
  induction u as [|c u IH]; simpl; [reflexivity|].
  destruct (Ascii.eqb c "#"); simpl; [discriminate|exact IH].
Qed.

Lemma from_hash_split p g :
  no_hash p = true -> from_hash (p ++ String "#" g) = Some (String "#" g).
Proof.
  induction p as [|c p IH]; simpl; [reflexivity|].
  destruct (Ascii.eqb c "#"); simpl; [discriminate|exact IH].
Qed.

Lemma no_hash_trim_start u : no_hash u = true -> no_hash (trim_start u) = true.
Proof.
  induction u as [|c u IH]; [reflexivity|]. intros H.
  cbn [trim_start]. destruct (isWs c); [|exact H].
  simpl in H. apply andb_prop in H as [_ H]. now apply IH.
Qed.

Lemma no_hash_trim_end u : no_hash u = true -> no_hash (trim_end u) = true.
Proof.
  induction u as [|c u IH]; [reflexivity|]. intros H.
  simpl in H. apply andb_prop in H as [Hc H]. specialize (IH H).
  cbn [trim_end]. destruct (trim_end u) as [|c' kept].
  - destruct (isWs c); [reflexivity|]. simpl. now rewrite Hc.
  - change (no_hash (String c (String c' kept)))
      with (negb (Ascii.eqb c "#") && no_hash (String c' kept)).
    now rewrite Hc, IH.
Qed.

Lemma parse_hash_none u : no_hash u = true -> parse_hash u = None.
Proof.
  intros H. unfold parse_hash, trim. cbv zeta.
  now rewrite from_hash_none by apply no_hash_trim_end, no_hash_trim_start, H.
Qed.

Lemma trim_start_hash p g :
  trim_start (p ++ String "#" g) = trim_start p ++ String "#" g.
Proof.
  induction p as [|c p IH]; [reflexivity|].
  change (String c p ++ String "#" g) with (String c (p ++ String "#" g)).
  cbn [trim_start]. destruct (isWs c); [exact IH|reflexivity].
Qed.

Lemma trim_end_hash q g :
  trim_end (q ++ String "#" g) = q ++ String "#" (trim_end g).
Proof.
  induction q as [|c q IH].
  - change (EmptyString ++ String "#" g) with (String "#" g).
    cbn [trim_end]. destruct (trim_end g); reflexivity.
  - change (String c q ++ String "#" g) with (String c (q ++ String "#" g)).
    cbn [trim_end]. rewrite IH. destruct q; reflexivity.
Qed.

Lemma trim_split p f :
  trim (p ++ String "#" f) = trim_start p ++ String "#" (trim_end f).
Proof. unfold trim. now rewrite trim_start_hash, trim_end_hash. Qed.

(** The hash of a url with a fragment: the fragment without its trailing
    whitespace, escaped unless the protocol is [javascript:]. *)
Lemma parse_hash_fragment p f :
  no_hash p = true ->
  parse_hash (p ++ String "#" f)
  = Some (String "#"
            (if unsafeProtocol (trim (p ++ String "#" f))
             then trim_end f else autoEscapeStr (trim_end f))).
Proof.
  intros Hp. unfold parse_hash. cbv zeta. rewrite trim_split.
  rewrite from_hash_split by apply no_hash_trim_start, Hp.
  destruct (unsafeProtocol _); reflexivity.
Qed.

Lemma escape_free_id t : escape_free t = true -> autoEscapeStr t = t.
Proof.
  induction t as [|c t IH]; [reflexivity|]. cbn [escape_free autoEscapeStr].
  destruct (autoEscape c); [discriminate|]. intros H. now rewrite IH.
Qed.

Lemma plain_escape_free f : plain f = true -> escape_free f = true.
Proof.
  induction f as [|c f IH]; [reflexivity|]. cbn [plain escape_free].
  destruct (autoEscape c); [now rewrite andb_false_r|].
  intros H. apply andb_prop in H as [_ H]. now apply IH.
Qed.

Lemma plain_trim_end f : plain f = true -> trim_end f = f.
Proof.
  induction f as [|c f IH]; [reflexivity|]. cbn [plain trim_end].
  intros H. apply andb_prop in H as [Hc H]. apply andb_prop in Hc as [Hc _].
  rewrite (IH H). destruct f; [|reflexivity].
  now destruct (isWs c).
Qed.

(** A fragment without whitespace and without escaped characters is
    handed back as it is written. *)
Lemma parse_hash_split p f :
  no_hash p = true -> plain f = true ->
  parse_hash (p ++ String "#" f) = Some (String "#" f).
Proof.
  intros Hp Hf. rewrite (parse_hash_fragment p f Hp).
  rewrite (plain_trim_end f Hf), (escape_free_id f (plain_escape_free f Hf)).
  now destruct (unsafeProtocol _).
Qed.

Lemma prefix_refl s : String.prefix s s = true.
Proof.
  induction s as [|c s IH]; simpl; [reflexivity|].
  destruct (ascii_dec c c); [exact IH|congruence].
Qed.

Lemma prefix_trim_end f : String.prefix (trim_end f) f = true.
Proof.
  induction f as [|c f IH]; [reflexivity|]. cbn [trim_end].
  destruct (trim_end f) as [|c' kept].
  - destruct (isWs c); [reflexivity|]. cbn [String.prefix].
    destruct (ascii_dec c c); [exact IH|congruence].
  - cbn [String.prefix] in *.
    destruct (ascii_dec c c); [exact IH|congruence].
Qed.


(** A string that begins with [#] is not found before the first [#]. *)
Lemma index_skip p e s :
  no_hash p = true ->
  String.index 0 (String "#" e) (p ++ String "#" s)
  = option_map (Nat.add (String.length p))
      (String.index 0 (String "#" e) (String "#" s)).
Proof.
  set (r := String.index 0 (String "#" e) (String "#" s)).
  induction p as [|c p IH]; intros Hp.
  - change (EmptyString ++ String "#" s) with (String "#" s).
    fold r. now destruct r.
  - simpl in Hp. apply andb_prop in Hp as [Hc Hp].
    change (String c p ++ String "#" s) with (String c (p ++ String "#" s)).
    cbn [String.index String.prefix String.length].
    destruct (ascii_dec "#" c) as [<-|_]; [vm_compute in Hc; discriminate Hc|].
    rewrite (IH Hp). now destruct r.
Qed.

Lemma index_hash_prefix p t f :
  no_hash p = true -> String.prefix t f = true ->
  String.index 0 (String "#" t) (p ++ String "#" f) = Some (String.length p).
Proof.
  intros Hp Ht. rewrite (index_skip p t f Hp).
  cbn [String.index String.prefix].
  destruct (ascii_dec "#" "#"); [|congruence]. rewrite Ht. cbn.
  now rewrite Nat.add_0_r.
Qed.

Lemma index_hash_split p f :
  no_hash p = true ->
  String.index 0 (String "#" f) (p ++ String "#" f) = Some (String.length p).
Proof. intros Hp. apply index_hash_prefix; [exact Hp|apply prefix_refl]. Qed.

(** *** An escaped hash does not occur in the url

    Counting the characters that are not whitespace: escaping adds some,
    trimming removes none, and a string that occurs in another has no more
    of them. *)

Lemma weight_app a b : weight (a ++ b) = (weight a + weight b)%nat.
Proof.
  induction a as [|c a IH]; [reflexivity|].
  change (String c a ++ b) with (String c (a ++ b)). cbn [weight].
  rewrite IH. destruct (isWs c); lia.
Qed.

Lemma weight_prefix a b : String.prefix a b = true -> (weight a <= weight b)%nat.
Proof.
  revert b. induction a as [|c a IH]; intros [|d b] H; cbn [weight];
    try (cbn in H; discriminate H); try lia.
  cbn [String.prefix] in H. destruct (ascii_dec c d) as [<-|_]; [|discriminate].
  specialize (IH b H). destruct (isWs c); lia.
Qed.

Lemma weight_index a b n :
  String.index 0 a b = Some n -> (weight a <= weight b)%nat.
Proof.
  revert n. induction b as [|d b IH]; intros n H.
  - destruct a; [cbn; lia|discriminate H].
  - cbn [String.index] in H.
    destruct (String.prefix a (String d b)) eqn:Hpre.
    + now apply weight_prefix.
    + destruct (String.index 0 a b) as [m|] eqn:Hi; [|discriminate H].
      specialize (IH m eq_refl). cbn [weight]. destruct (isWs d); lia.
Qed.

Lemma weight_trim_end f : weight (trim_end f) = weight f.
Proof.
  induction f as [|c f IH]; [reflexivity|].
  change (weight (String c f))
    with ((if isWs c then 0 else 1) + weight f)%nat.
  rewrite <- IH. cbn [trim_end]. destruct (trim_end f) as [|c' kept].
  - destruct (isWs c) eqn:E; [reflexivity|]. cbn [weight]. now rewrite E.
  - reflexivity.
Qed.

Lemma weight_autoEscape c e : autoEscape c = Some e -> weight e = 3%nat.
Proof.
  unfold autoEscape. generalize (nat_of_ascii c) as n. intros n.
  do 126 (destruct n as [|n];
          [intros H; (discriminate H || (injection H as <-; reflexivity))|]).
  discriminate.
Qed.

Lemma weight_escaped_le t : (weight t <= weight (autoEscapeStr t))%nat.
Proof.
  induction t as [|c t IH]; [reflexivity|]. cbn [autoEscapeStr weight].
  destruct (autoEscape c) as [e|] eqn:He.
  - rewrite weight_app, (weight_autoEscape c e He). destruct (isWs c); lia.
  - cbn [weight]. destruct (isWs c); lia.
Qed.

Lemma weight_escaped_lt t :
  escape_free t = false -> (weight t < weight (autoEscapeStr t))%nat.
Proof.
  induction t as [|c t IH]; [discriminate|]. cbn [escape_free autoEscapeStr weight].
  destruct (autoEscape c) as [e|] eqn:He.
  - intros _. rewrite weight_app, (weight_autoEscape c e He).
    pose proof (weight_escaped_le t). destruct (isWs c); lia.
  - intros H. specialize (IH H). cbn [weight]. destruct (isWs c); lia.
Qed.

Lemma index_escaped_none p f :
  no_hash p = true -> escape_free (trim_end f) = false ->
  String.index 0 (String "#" (autoEscapeStr (trim_end f))) (p ++ String "#" f)
  = None.
Proof.
  intros Hp He. rewrite (index_skip _ _ _ Hp).
  destruct (String.index 0 _ (String "#" f)) as [n|] eqn:Hi; [|reflexivity].
  apply weight_index in Hi. cbn [weight] in Hi.
  change (isWs "#") with false in Hi.
  pose proof (weight_escaped_lt _ He). rewrite weight_trim_end in H. lia.
Qed.

Lemma substring_prefix p rest :
  String.substring 0 (String.length p) (p ++ rest) = p.
Proof.
  induction p as [|c p IH]; simpl.
  - destruct rest; reflexivity.
  - now rewrite IH.
Qed.


(** *** The TypeScript [normalizeUrl] *)


(** The fragment is stripped, with something before it, when [url.parse]
    hands it back unescaped: it holds none of the escaped characters, or
    the protocol is [javascript:]. *)
Lemma JSSDK_normalizeUrl_fragment p f :
  no_hash p = true -> p <> EmptyString ->
  unsafeProtocol (trim (p ++ String "#" f)) = true
  \/ escape_free (trim_end f) = true ->
  JSSDK.normalizeUrl (p ++ String "#" f) = p.
Proof.
  intros Hp Hne Hraw. unfold JSSDK.normalizeUrl, indexOf, substring0.
  rewrite (parse_hash_fragment p f Hp). cbv zeta. cbn [from_option id].
  replace (if unsafeProtocol (trim (p ++ String "#" f))
           then trim_end f else autoEscapeStr (trim_end f))
    with (trim_end f)
    by (destruct Hraw as [->|He]; [reflexivity|];
        rewrite (escape_free_id _ He); now destruct (unsafeProtocol _)).
  rewrite (index_hash_prefix p (trim_end f) f Hp (prefix_trim_end f)).
  destruct p as [|c p]; [congruence|].
  replace (Z.of_nat (String.length (String c p)) >? 0)%Z with true
    by (symmetry; apply Z.gtb_lt; simpl; lia).
  rewrite Nat2Z.id. apply substring_prefix.
Qed.

Lemma JSSDK_normalizeUrl_strips p f :
  no_hash p = true -> p <> EmptyString -> plain f = true ->
  JSSDK.normalizeUrl (p ++ String "#" f) = p.
Proof.
  intros Hp Hne Hf. apply JSSDK_normalizeUrl_fragment; [exact Hp|exact Hne|].
  right. rewrite (plain_trim_end f Hf). now apply plain_escape_free.
Qed.


(** The same page under two such fragments is one cache key. *)
Lemma JSSDK_normalizeUrl_same_key p f g :
  no_hash p = true -> p <> EmptyString -> plain f = true -> plain g = true ->
  JSSDK.normalizeUrl (p ++ String "#" f) = JSSDK.normalizeUrl (p ++ String "#" g).
Proof.
  intros Hp Hne Hf Hg. now rewrite !JSSDK_normalizeUrl_strips.
Qed.



(** *** The legacy [normalizeUrl] *)

Lemma LegacyJSSDK_normalizeUrl_fragment p f :
  no_hash p = true -> p <> EmptyString ->
  unsafeProtocol (trim (p ++ String "#" f)) = true
  \/ escape_free (trim_end f) = true ->
  LegacyJSSDK.normalizeUrl (p ++ String "#" f) = p.
Proof.
  intros Hp Hne Hraw. unfold LegacyJSSDK.normalizeUrl, indexOf, substring0.
  rewrite (parse_hash_fragment p f Hp). cbv zeta. cbn [from_option id].
  replace (if unsafeProtocol (trim (p ++ String "#" f))
           then trim_end f else autoEscapeStr (trim_end f))
    with (trim_end f)
    by (destruct Hraw as [->|He]; [reflexivity|];
        rewrite (escape_free_id _ He); now destruct (unsafeProtocol _)).
  rewrite (index_hash_prefix p (trim_end f) f Hp (prefix_trim_end f)).
  destruct p as [|c p]; [congruence|].
  replace (Z.of_nat (String.length (String c p)) >? 0)%Z with true
    by (symmetry; apply Z.gtb_lt; simpl; lia).
  rewrite Nat2Z.id. apply substring_prefix.
Qed.

Lemma LegacyJSSDK_normalizeUrl_strips p f :
  no_hash p = true -> p <> EmptyString -> plain f = true ->
  LegacyJSSDK.normalizeUrl (p ++ String "#" f) = p.
Proof.
  intros Hp Hne Hf. apply LegacyJSSDK_normalizeUrl_fragment;
    [exact Hp|exact Hne|].
  right. rewrite (plain_trim_end f Hf). now apply plain_escape_free.
Qed.

Lemma LegacyJSSDK_normalizeUrl_keeps_escaped p f :
  no_hash p = true ->
  unsafeProtocol (trim (p ++ String "#" f)) = false ->
  escape_free (trim_end f) = false ->
  LegacyJSSDK.normalizeUrl (p ++ String "#" f) = p ++ String "#" f.
Proof.
  intros Hp Hjs He. unfold LegacyJSSDK.normalizeUrl, indexOf.
  rewrite (parse_hash_fragment p f Hp), Hjs. cbv zeta. cbn [from_option id].
  now rewrite (index_escaped_none p f Hp He).
Qed.

(** Without a fragment the legacy [normalizeUrl] looks for the string
    ["null"]: it returns the url unchanged only when ["null"] does not occur
    in it after position 0. *)
Lemma LegacyJSSDK_normalizeUrl_no_fragment u :
  no_hash u = true ->
  LegacyJSSDK.normalizeUrl u
  = match String.index 0 "null" u with
    | Some (S n) => String.substring 0 (S n) u
    | _ => u
    end.
Proof.
  intros H. unfold LegacyJSSDK.normalizeUrl, indexOf, substring0.
  rewrite (parse_hash_none u H). simpl default.
  destruct (String.index 0 "null" u) as [[|n]|]; try reflexivity.
  replace (Z.of_nat (S n) >? 0)%Z with true
    by (symmetry; apply Z.gtb_lt; lia).
  now rewrite Nat2Z.id.
Qed.

(** C8. The legacy [normalizeUrl] searches the url for the string ["null"]
    when the url has no fragment, and cuts the url there: a url without a
    fragment is not returned unchanged, while the TypeScript [normalizeUrl]
    returns the same url as it is. *)
Theorem C8_legacy_normalizeUrl_cuts_at_null :
  no_hash "http://example.com/null/page" = true /\
  LegacyJSSDK.normalizeUrl "http://example.com/null/page"
    = "http://example.com/" /\
  JSSDK.normalizeUrl "http://example.com/null/page"
    = "http://example.com/null/page".
Proof. repeat split; vm_compute; reflexivity. Qed.

(** ** The canonical string and the signature *)

Arguments SHA1.hex : simpl never.
Arguments Utils.genSHA1 : simpl never.

Lemma paramsToString_four t n ts u :
  Utils.paramsToString
    [("jsapi_ticket", t); ("nonceStr", VStr n); ("timestamp", VStr ts);
     ("url", VStr u)]
  = "jsapi_ticket=" ++ to_string t ++ "&noncestr=" ++ n
      ++ "&timestamp=" ++ ts ++ "&url=" ++ u.
Proof. reflexivity. Qed.

Lemma paramsToString_six t n ts u sg a :
  Utils.paramsToString
    [("jsapi_ticket", t); ("nonceStr", VStr n); ("timestamp", VStr ts);
     ("url", VStr u); ("signature", VStr sg); ("accessToken", VStr a)]
  = "accesstoken=" ++ a ++ "&jsapi_ticket=" ++ to_string t
      ++ "&noncestr=" ++ n ++ "&signature=" ++ sg
      ++ "&timestamp=" ++ ts ++ "&url=" ++ u.
Proof. reflexivity. Qed.

(** The legacy [genSignature] hashes the four-tuple. *)
Lemma LegacyJSSDK_genSignature_canonical ticket url accessToken w :
  exists r,
    LegacyJSSDK.genSignature ticket url accessToken w
      = (Resolved r, set_drawn (S (drawn w)) w) /\
    get "signature" r
      = VStr (SHA1.hex
                ("jsapi_ticket=" ++ to_string ticket
                 ++ "&noncestr=" ++ rng w (drawn w)
                 ++ "&timestamp=" ++ pretty (Z.quot (clock w) 1000)
                 ++ "&url=" ++ LegacyJSSDK.normalizeUrl url)) /\
    get "accessToken" r = accessToken /\
    get "jsapi_ticket" r = ticket.
Proof.
  eexists. split; [reflexivity|].
  rewrite paramsToString_four. repeat split.
Qed.

(** The TypeScript [generateSignature] builds the record with empty
    [signature] and [accessToken] properties first and hashes all six. *)
Lemma JSSDK_generateSignature_canonical url accessToken ticket w :
  exists r,
    JSSDK.generateSignature url accessToken ticket w
      = (Resolved r, set_drawn (S (drawn w)) w) /\
    get "signature" r
      = VStr (SHA1.hex
                ("accesstoken=" ++ "&jsapi_ticket=" ++ to_string ticket
                 ++ "&noncestr=" ++ rng w (drawn w) ++ "&signature="
                 ++ "&timestamp=" ++ Utils.timestamp (clock w)
                 ++ "&url=" ++ JSSDK.normalizeUrl url)) /\
    get "accessToken" r = accessToken /\
    get "jsapi_ticket" r = ticket.
Proof.
  eexists. split; [reflexivity|].
  rewrite paramsToString_six. repeat split.
Qed.

Example fixture_digest :
  SHA1.hex fixture_canonical = "8507242a95ad8fb5ea3037f7cf3f29c8fac7fc02".
Proof. vm_compute. reflexivity. Qed.

Example fixture_six_pairs_digest :
  SHA1.hex fixture_six_pairs = "bea5130c5a4592ba89c2a0954620f18bae933ae4".
Proof. vm_compute. reflexivity. Qed.

(** C1. On the fixture the TypeScript [generateSignature] does not produce
    the SHA-1 of the canonical four-tuple string: its digest is that of the
    six-pair string with empty [accesstoken] and [signature]. The legacy
    [genSignature] produces the expected digest on the same input. *)
Theorem C1_generateSignature_fixture :
  signature_of
    (JSSDK.generateSignature "http://example.com/page" (VStr "tok") (VStr "t123")
       fixture_world)
  = VStr (SHA1.hex fixture_six_pairs)
  /\
  signature_of
    (JSSDK.generateSignature "http://example.com/page" (VStr "tok") (VStr "t123")
       fixture_world)
  <> VStr (SHA1.hex fixture_canonical)
  /\
  signature_of
    (LegacyJSSDK.genSignature (VStr "t123") "http://example.com/page" (VStr "tok")
       fixture_world)
  = VStr (SHA1.hex fixture_canonical).
Proof.
  split; [vm_compute; reflexivity|].
  split; [vm_compute; discriminate|vm_compute; reflexivity].
Qed.

(** ** [verifySignature] *)

Lemma JSSDK_verifySignature_unfold options query :
  JSSDK.verifySignature options query
  = bool_decide (VStr (SHA1.hex (sorted_concat options query))
                 = get "signature" query).
Proof. reflexivity. Qed.

Lemma LegacyJSSDK_verifySignature_same options query :
  LegacyJSSDK.verifySignature options query
  = JSSDK.verifySignature options query.
Proof. reflexivity. Qed.

(** C5, the claim as stated fails: with token [tok] and nonce [121], the
    timestamps [12] and [21] give the same sorted concatenation
    [12121tok], so a query whose timestamp was tampered with still
    verifies. *)
Lemma C5_tampered_timestamp_still_verifies :
  let options := Options (VStr "wx") (VStr "secret") (VStr "tok") in
  let sig := VStr "31043dd3af501561572792249be0039d3b4edf7b" in
  let query :=
    [("timestamp", VStr "12"); ("nonce", VStr "121"); ("signature", sig)] in
  let tampered :=
    [("timestamp", VStr "21"); ("nonce", VStr "121"); ("signature", sig)] in
  JSSDK.verifySignature options query = true /\
  get "timestamp" tampered <> get "timestamp" query /\
  get "nonce" tampered = get "nonce" query /\
  get "signature" tampered = get "signature" query /\
  JSSDK.verifySignature options tampered = true.
Proof. repeat split; vm_compute; (reflexivity || discriminate). Qed.

(** C5, amended. [verifySignature] returns true exactly when the supplied
    signature is the SHA-1 hex digest of the sorted concatenation of the
    token, the timestamp and the nonce. From a query that verifies, any
    change of the signature alone, and any change of the fields that
    changes the digest of the sorted concatenation, is rejected. *)
Theorem C5_verifySignature_digest options query query' :
  (JSSDK.verifySignature options query = true <->
   get "signature" query = VStr (SHA1.hex (sorted_concat options query))) /\
  (JSSDK.verifySignature options query = true ->
   sorted_concat options query' = sorted_concat options query ->
   get "signature" query' <> get "signature" query ->
   JSSDK.verifySignature options query' = false) /\
  (JSSDK.verifySignature options query = true ->
   get "signature" query' = get "signature" query ->
   SHA1.hex (sorted_concat options query')
     <> SHA1.hex (sorted_concat options query) ->
   JSSDK.verifySignature options query' = false) /\
  LegacyJSSDK.verifySignature options query
    = JSSDK.verifySignature options query.
Proof.
  split; [|split; [|split]];
    [| | |apply LegacyJSSDK_verifySignature_same];
    rewrite !JSSDK_verifySignature_unfold.
  - split; intros H.
    + apply bool_decide_eq_true in H. now symmetry.
    + apply bool_decide_eq_true. now symmetry.
  - intros H Hc Hs. apply bool_decide_eq_true in H.
    apply bool_decide_eq_false. rewrite Hc. congruence.
  - intros H Hs Hd. apply bool_decide_eq_true in H.
    apply bool_decide_eq_false. rewrite Hs, <- H. congruence.
Qed.

(** A query that verifies, and the same query with a forged signature. *)
Lemma C5_verifySignature_digest_witness :
  let options := Options (VStr "wx") (VStr "secret") (VStr "tok") in
  let forged_sig := VStr "a0cb86810386f1333adc43d062861b27b2fe0a64" in
  let query :=
    [("timestamp", VStr "1400000000"); ("nonce", VStr "n456");
     ("signature", VStr (SHA1.hex "1400000000n456tok"))] in
  let forged :=
    [("timestamp", VStr "1400000000"); ("nonce", VStr "n456");
     ("signature", forged_sig)] in
  JSSDK.verifySignature options query = true /\
  JSSDK.verifySignature options forged = false.
Proof.
  intros options forged_sig query forged.
  assert (Hq : JSSDK.verifySignature options query = true)
    by (vm_compute; reflexivity).
  split; [exact Hq|].
  refine (proj1 (proj2 (C5_verifySignature_digest options query forged)) Hq _ _).
  - vm_compute; reflexivity.
  - vm_compute; discriminate.
Defined.

(** ** The legacy token manager *)

Section LegacyTokens.
Variable cfg : WeChatOptions.

Let tokenReq : request := AccessTokenReq (appId cfg) (appSecret cfg).

Lemma getNewTokenAndTicket_forced w :
  LegacyJSSDK.getNewTokenAndTicket cfg true w = fetchAndStore cfg w.
Proof. reflexivity. Qed.

Lemma getNewTokenAndTicket_manual w :
  LegacyJSSDK.getNewTokenAndTicket cfg false w =
  let w1 := set_refreshedTimes (refreshedTimes w + 1) w in
  if (refreshedTimes w + 1 >? 5)%Z
  then (Rejected "maximum manual refresh threshold reached!", w1)
  else fetchAndStore cfg w1.
Proof.
  unfold LegacyJSSDK.getNewTokenAndTicket, bind, LegacyJSSDK.count_refresh.
  cbn. destruct (refreshedTimes w + 1 >? 5)%Z; reflexivity.
Qed.

(** The three ways the fetch can go. *)
Lemma fetchAndStore_token_rejected w reason :
  upstream w (sent w) tokenReq = Rejected reason ->
  fetchAndStore cfg w = (Rejected reason, set_sent (sent w ++ [tokenReq]) w).
Proof.
  intros H. unfold fetchAndStore, bind, LegacyJSSDK.getAccessToken,
    sendWechatRequest. fold tokenReq. now rewrite H.
Qed.

Lemma fetchAndStore_ticket_rejected w result reason :
  upstream w (sent w) tokenReq = Resolved result ->
  upstream w (sent w ++ [tokenReq]) (TicketReq (get "access_token" result))
    = Rejected reason ->
  fetchAndStore cfg w
  = (Rejected reason,
     set_sent (sent w ++ [tokenReq; TicketReq (get "access_token" result)]) w).
Proof.
  intros H1 H2. unfold fetchAndStore, bind, LegacyJSSDK.getAccessToken,
    LegacyJSSDK.getWechatTicket, sendWechatRequest. fold tokenReq.
  rewrite H1. cbn [upstream sent set_sent]. rewrite H2.
  now rewrite <- app_assoc.
Qed.

Lemma fetchAndStore_resolved w result ticketResult :
  upstream w (sent w) tokenReq = Resolved result ->
  upstream w (sent w ++ [tokenReq]) (TicketReq (get "access_token" result))
    = Resolved ticketResult ->
  exists merged,
    fetchAndStore cfg w
    = (Resolved merged,
       set_store
         (Store (Some merged) (urls (wstore w)) (oauthTokens (wstore w)))
         (set_sent
            (sent w ++ [tokenReq; TicketReq (get "access_token" result)]) w))
    /\ get "modifyDate" merged = VNum (clock w)
    /\ (truthy (get "access_token" result) = true ->
        get "accessToken" merged = get "access_token" result)
    /\ (truthy (get "ticket" ticketResult) = true ->
        get "jsapi_ticket" merged = get "ticket" ticketResult).
Proof.
  intros H1 H2. unfold fetchAndStore, bind, LegacyJSSDK.getAccessToken,
    LegacyJSSDK.getWechatTicket, sendWechatRequest. fold tokenReq.
  rewrite H1. cbn [upstream sent set_sent]. rewrite H2.
  unfold LegacyJSSDK.updateAccessTokenOrTicketGlobally, bind, now,
    StoreOps.updateGlobalToken.
  cbn [clock wstore set_sent set_store].
  eexists. split; [rewrite <- app_assoc; reflexivity|].
  destruct (truthy (get "access_token" result)),
           (truthy (get "ticket" ticketResult));
    cbn [assign fold_left fst snd JS.set String.eqb Ascii.eqb Bool.eqb];
    repeat split; intros; try discriminate;
    rewrite ?get_set_eq; try reflexivity;
    repeat (rewrite get_set_ne by discriminate);
    rewrite ?get_set_eq; reflexivity.
Qed.

Lemma fetchAndStore_sends_first w :
  exists tail,
    sent (snd (fetchAndStore cfg w)) = (sent w ++ tokenReq :: tail)%list.
Proof.
  unfold fetchAndStore, bind, LegacyJSSDK.getAccessToken,
    LegacyJSSDK.getWechatTicket, sendWechatRequest. fold tokenReq.
  destruct (upstream w (sent w) tokenReq) as [result|r].
  - cbn [upstream sent set_sent].
    destruct (upstream w _ _) as [ticketResult|r].
    + eexists. cbn. rewrite <- app_assoc. reflexivity.
    + eexists. cbn. rewrite <- app_assoc. reflexivity.
  - exists []. reflexivity.
Qed.

Lemma fetchAndStore_counter w :
  refreshedTimes (snd (fetchAndStore cfg w)) = refreshedTimes w.
Proof.
  unfold fetchAndStore, bind, LegacyJSSDK.getAccessToken,
    LegacyJSSDK.getWechatTicket, sendWechatRequest.
  destruct (upstream w (sent w) _) as [result|r]; [|reflexivity].
  cbn [upstream sent set_sent].
  destruct (upstream w _ _) as [ticketResult|r]; reflexivity.
Qed.

Lemma prepareNewSignature_unfold w :
  LegacyJSSDK.prepareNewSignature cfg w =
  match globalToken (wstore w) with
  | None => fetchAndStore cfg w
  | Some g =>
      if negb (truthy (get "accessToken" g))
         || LegacyJSSDK.isTokenExpired (dateParse w) (clock w) (get "modifyDate" g)
      then fetchAndStore cfg w
      else (Resolved g, w)
  end.
Proof.
  unfold LegacyJSSDK.prepareNewSignature, bind, StoreOps.getGlobalToken.
  destruct (globalToken (wstore w)) as [g|]; [|reflexivity].
  destruct (negb _ || _); reflexivity.
Qed.

Lemma isTokenExpired_time parse clock d t :
  Utils.getTime parse d = Some t ->
  LegacyJSSDK.isTokenExpired parse clock d = true
  <-> (clock - t > 119 * 60 * 1000)%Z.
Proof.
  intros Ht. unfold LegacyJSSDK.isTokenExpired, LegacyJSSDK.REFRESH_INTERVAL.
  rewrite Ht.
  destruct (Z.gtb_spec (clock - t) (1000 * 119 * 60)); split; intros;
    (lia || congruence).
Qed.


(** A [modifyDate] that is no date never expires: a comparison with NaN is
    false. *)
Lemma isTokenExpired_invalid parse clock d :
  Utils.getTime parse d = None ->
  LegacyJSSDK.isTokenExpired parse clock d = false.
Proof. intros Ht. unfold LegacyJSSDK.isTokenExpired. now rewrite Ht. Qed.

(** C2, amended. A record is expired iff [modifyDate], read as
    [new Date(modifyDate).getTime()] (a [Date] or a date string), is a date
    and [now - modifyDate > 1h59m]; it is valid otherwise, so at
    [now - modifyDate <= 1h59m], and also when [modifyDate] is no date. On
    a valid cached record with an access token [prepareNewSignature]
    returns it and sends nothing. On an absent record, one without access
    token, or an expired one it sends exactly one access-token request; if
    that is rejected nothing else happens; if it resolves, exactly one
    ticket request with the received token follows; if that resolves too,
    the merged record is persisted as the global token and returned. *)
Theorem C2_prepareNewSignature_cases w :
  let req := AccessTokenReq (appId cfg) (appSecret cfg) in
  (forall d,
      (LegacyJSSDK.isTokenExpired (dateParse w) (clock w) d = true
       <-> exists t, Utils.getTime (dateParse w) d = Some t /\
                     (clock w - t > 119 * 60 * 1000)%Z) /\
      (forall t, Utils.getTime (dateParse w) d = Some t ->
                 (LegacyJSSDK.isTokenExpired (dateParse w) (clock w) d = false
                  <-> (clock w - t <= 119 * 60 * 1000)%Z)))
  /\
  (forall g,
      globalToken (wstore w) = Some g ->
      truthy (get "accessToken" g) = true ->
      LegacyJSSDK.isTokenExpired (dateParse w) (clock w) (get "modifyDate" g) = false ->
      LegacyJSSDK.prepareNewSignature cfg w = (Resolved g, w))
  /\
  ((globalToken (wstore w) = None \/
    exists g, globalToken (wstore w) = Some g /\
              (truthy (get "accessToken" g) = false \/
               LegacyJSSDK.isTokenExpired (dateParse w) (clock w) (get "modifyDate" g) = true)) ->
   (forall reason,
       upstream w (sent w) req = Rejected reason ->
       LegacyJSSDK.prepareNewSignature cfg w
         = (Rejected reason, set_sent (sent w ++ [req]) w))
   /\
   (forall result reason,
       upstream w (sent w) req = Resolved result ->
       upstream w (sent w ++ [req]) (TicketReq (get "access_token" result))
         = Rejected reason ->
       LegacyJSSDK.prepareNewSignature cfg w
         = (Rejected reason,
            set_sent
              (sent w ++ [req; TicketReq (get "access_token" result)]) w))
   /\
   (forall result ticketResult,
       upstream w (sent w) req = Resolved result ->
       upstream w (sent w ++ [req]) (TicketReq (get "access_token" result))
         = Resolved ticketResult ->
       exists merged,
         LegacyJSSDK.prepareNewSignature cfg w
         = (Resolved merged,
            set_store
              (Store (Some merged) (urls (wstore w)) (oauthTokens (wstore w)))
              (set_sent
                 (sent w ++ [req; TicketReq (get "access_token" result)]) w))
         /\ get "modifyDate" merged = VNum (clock w)
         /\ (truthy (get "access_token" result) = true ->
             get "accessToken" merged = get "access_token" result)
         /\ (truthy (get "ticket" ticketResult) = true ->
             get "jsapi_ticket" merged = get "ticket" ticketResult))).
Proof.
  intros req. split; [|split].
  - intros d. split.
    + destruct (Utils.getTime (dateParse w) d) as [t|] eqn:Ht.
      * rewrite (isTokenExpired_time _ (clock w) d t Ht). split.
        -- intros H. now exists t.
        -- intros (t' & Ht' & H). now injection Ht' as <-.
      * rewrite (isTokenExpired_invalid _ (clock w) d Ht). split.
        -- discriminate.
        -- intros (t & Ht' & _). discriminate.
    + intros t Ht.
      pose proof (isTokenExpired_time _ (clock w) d t Ht) as H.
      destruct (LegacyJSSDK.isTokenExpired (dateParse w) (clock w) d).
      * split; [discriminate|]. intros Hle.
        assert (clock w - t > 119 * 60 * 1000)%Z by (now apply H). lia.
      * split; [intros _|reflexivity].
        destruct (Z_le_gt_dec (clock w - t) (119 * 60 * 1000)) as [Hle|Hgt];
          [exact Hle|]. apply H in Hgt. discriminate.
  - intros g Hg Ht Hx. rewrite prepareNewSignature_unfold, Hg, Ht, Hx.
    reflexivity.
  - intros Hstale.
    assert (Hrun : LegacyJSSDK.prepareNewSignature cfg w = fetchAndStore cfg w).
    { rewrite prepareNewSignature_unfold.
      destruct Hstale as [Hnone|(g & Hg & [Ht|Hx])].
      - now rewrite Hnone.
      - now rewrite Hg, Ht.
      - rewrite Hg, Hx. now rewrite orb_true_r. }
    rewrite Hrun. split; [|split].
    + intros reason. apply fetchAndStore_token_rejected.
    + intros result reason. apply fetchAndStore_ticket_rejected.
    + intros result ticketResult. apply fetchAndStore_resolved.
Qed.

(** *** The manual refresh counter *)

Lemma manual_counter w :
  refreshedTimes (manual cfg w) = (refreshedTimes w + 1)%Z.
Proof.
  unfold manual. rewrite getNewTokenAndTicket_manual. cbv zeta.
  destruct (refreshedTimes w + 1 >? 5)%Z; [reflexivity|].
  now rewrite fetchAndStore_counter.
Qed.

Lemma window_counter n w w' :
  window cfg n w w' -> refreshedTimes w' = (refreshedTimes w + Z.of_nat n)%Z.
Proof.
  induction 1 as [w|n w w' _ IH|n w w' w'' _ IH Heq].
  - simpl. lia.
  - rewrite manual_counter, IH. lia.
  - rewrite Heq, IH. reflexivity.
Qed.

(** A forced refresh and [prepareNewSignature] are such other activity. *)
Lemma forced_is_other w :
  refreshedTimes (snd (LegacyJSSDK.getNewTokenAndTicket cfg true w))
  = refreshedTimes w.
Proof. rewrite getNewTokenAndTicket_forced. apply fetchAndStore_counter. Qed.

Lemma prepare_is_other w :
  refreshedTimes (snd (LegacyJSSDK.prepareNewSignature cfg w))
  = refreshedTimes w.
Proof.
  rewrite prepareNewSignature_unfold.
  destruct (globalToken (wstore w)) as [g|];
    [destruct (negb _ || _)|]; try reflexivity; apply fetchAndStore_counter.
Qed.

(** C3. After five manual refreshes in one counter window, the next
    manual call to [getNewTokenAndTicket] is rejected with the threshold
    error and sends nothing upstream; in a window that starts from the
    reset counter the first five manual calls do go upstream, so at most
    five manual refreshes per window reach the network; the timer
    callback puts the counter back to zero. *)
Theorem C3_sixth_manual_refresh_rejected n w w' :
  window cfg n w w' -> (0 <= refreshedTimes w)%Z ->
  ((5 <= n)%nat ->
   LegacyJSSDK.getNewTokenAndTicket cfg false w'
     = (Rejected "maximum manual refresh threshold reached!",
        set_refreshedTimes (refreshedTimes w' + 1) w')
   /\ sent (snd (LegacyJSSDK.getNewTokenAndTicket cfg false w')) = sent w')
  /\
  (refreshedTimes w = 0%Z -> (n < 5)%nat ->
   exists tail,
     sent (snd (LegacyJSSDK.getNewTokenAndTicket cfg false w'))
     = (sent w' ++ AccessTokenReq (appId cfg) (appSecret cfg) :: tail)%list)
  /\
  refreshedTimes (LegacyJSSDK.clearCounter w') = 0%Z.
Proof.
  intros Hwin Hpos. pose proof (window_counter n w w' Hwin) as Hc.
  split; [|split; [|reflexivity]].
  - intros Hn. rewrite getNewTokenAndTicket_manual. cbv zeta.
    replace (refreshedTimes w' + 1 >? 5)%Z with true
      by (symmetry; apply Z.gtb_lt; lia).
    split; reflexivity.
  - intros H0 Hn. rewrite getNewTokenAndTicket_manual. cbv zeta.
    replace (refreshedTimes w' + 1 >? 5)%Z with false
      by (symmetry; rewrite Z.gtb_ltb; apply Z.ltb_ge; lia).
    destruct (fetchAndStore_sends_first
                (set_refreshedTimes (refreshedTimes w' + 1) w')) as [tail Ht].
    exists tail. exact Ht.
Qed.

End LegacyTokens.

(** C2, the claim as stated fails. A record modified exactly 1h59m ago does
    not satisfy [now - modifyDate < 1h59m], yet [prepareNewSignature] treats
    it as valid: it returns it and sends nothing upstream. And with no
    cached record, when the access-token request is rejected, no ticket
    request follows and nothing is persisted. *)
Lemma C2_record_at_ttl_is_still_valid :
  let w := token_world (119 * 60 * 1000) (Some (cached_token 0)) no_upstream in
  let w0 := token_world (119 * 60 * 1000) None no_upstream in
  ~ (clock w - 0 < 119 * 60 * 1000)%Z /\
  LegacyJSSDK.prepareNewSignature sample_options w
    = (Resolved (cached_token 0), w) /\
  sent (snd (LegacyJSSDK.prepareNewSignature sample_options w)) = [] /\
  fst (LegacyJSSDK.prepareNewSignature sample_options w0) = Rejected "offline" /\
  sent (snd (LegacyJSSDK.prepareNewSignature sample_options w0))
    = [AccessTokenReq (VStr "wx-app") (VStr "wx-secret")] /\
  globalToken (wstore (snd (LegacyJSSDK.prepareNewSignature sample_options w0)))
    = None.
Proof.
  intros w w0. split; [vm_compute; intros H; discriminate H|].
  repeat split; vm_compute; reflexivity.
Qed.

(** A record dated by a string, one millisecond past 1h59m, is refreshed:
    one token request, one ticket request, and the merged record in the
    store. *)
Lemma C2_prepareNewSignature_cases_witness :
  let w := token_world (1480584343781 + 119 * 60 * 1000 + 1)
             (Some cached_token_json) upstream_ok in
  exists merged w',
    LegacyJSSDK.prepareNewSignature sample_options w = (Resolved merged, w') /\
    sent w'
      = [AccessTokenReq (VStr "wx-app") (VStr "wx-secret");
         TicketReq (VStr "NEW-TOKEN")] /\
    globalToken (wstore w') = Some merged /\
    get "accessToken" merged = VStr "NEW-TOKEN" /\
    get "jsapi_ticket" merged = VStr "NEW-TICKET".
Proof.
  intros w.
  destruct (C2_prepareNewSignature_cases sample_options w) as (_ & _ & Hstale).
  destruct Hstale as (_ & _ & Hok).
  { right. exists cached_token_json. split; [reflexivity|]. right.
    unfold w, token_world. cbn [dateParse clock].
    rewrite iso_date_unseal. vm_compute. reflexivity. }
  destruct (Hok [("access_token", VStr "NEW-TOKEN"); ("expires_in", VNum 7200)]
                [("ticket", VStr "NEW-TICKET")] eq_refl eq_refl)
    as (merged & Hrun & _ & Htok & Htic).
  eexists merged, _. split; [exact Hrun|].
  split; [reflexivity|]. split; [reflexivity|].
  split; [apply Htok|apply Htic]; reflexivity.
Defined.

(** Five manual refreshes from a fresh instance, then the sixth. *)
Lemma C3_sixth_manual_refresh_rejected_witness :
  let w := token_world 0 None upstream_ok in
  let m := manual sample_options in
  let w5 := m (m (m (m (m w)))) in
  length (sent w5) = 10%nat /\
  fst (LegacyJSSDK.getNewTokenAndTicket sample_options false w5)
    = Rejected "maximum manual refresh threshold reached!" /\
  sent (snd (LegacyJSSDK.getNewTokenAndTicket sample_options false w5))
    = sent w5.
Proof.
  intros w m w5.
  assert (Hwin : window sample_options 5 w w5)
    by (repeat apply window_manual; apply window_start).
  assert (Hpos : (0 <= refreshedTimes w)%Z) by (vm_compute; discriminate).
  destruct (C3_sixth_manual_refresh_rejected sample_options 5 w w5 Hwin Hpos)
    as (Hsix & _ & _).
  destruct (Hsix (le_n 5)) as [Hrej Hsent].
  split; [vm_compute; reflexivity|].
  split; [rewrite Hrej; reflexivity|exact Hsent].
Defined.

(** ** The signature engine of the TypeScript class *)

Section SignatureEngine.
Variable options : WeChatOptions.

Lemma filterSignature_fields s :
  let v := JSSDK.filterSignature options (Some s) in
  keys v = client_fields /\
  get "appId" v = appId options /\
  get "timestamp" v = get "timestamp" s /\
  get "nonceStr" v = get "nonceStr" s /\
  get "signature" v = get "signature" s /\
  get "url" v = get "url" s /\
  JS.lookup "jsapi_ticket" v = None /\
  JS.lookup "accessToken" v = None.
Proof. repeat split. Qed.





(** *** Saving and updating signature records *)

(** The TypeScript [updateSignature] keeps [createDate] and
    [signatureName] of the stored record: both are deleted from the
    payload before the merge. The [url] of the payload stays in. *)
Lemma JSSDK_updateSignature_keeps url info w old :
  urls (wstore w) !! JSSDK.normalizeUrl url = Some old ->
  exists merged,
    JSSDK.updateSignature url info w
      = (Resolved merged,
         set_store
           (Store (globalToken (wstore w))
              (<[JSSDK.normalizeUrl url := merged]> (urls (wstore w)))
              (oauthTokens (wstore w))) w) /\
    get "createDate" merged = get "createDate" old /\
    get "signatureName" merged = get "signatureName" old.
Proof.
  intros Hold. unfold JSSDK.updateSignature, bind, now,
    StoreOps.updateSignature. cbv zeta. cbn [clock wstore set_store].
  rewrite Hold. eexists. split; [reflexivity|]. cbn [default].
  split.
  - apply get_assign_absent.
    rewrite lookup_del_ne by discriminate. apply lookup_del_eq.
  - apply get_assign_absent. apply lookup_del_eq.
Qed.

(** The legacy [updateSignatureByUrl] keeps [url] and [signatureName] of
    the stored record. The [createDate] of the payload stays in. *)
Lemma LegacyJSSDK_updateSignatureByUrl_keeps url info w old :
  urls (wstore w) !! LegacyJSSDK.normalizeUrl url = Some old ->
  exists merged,
    LegacyJSSDK.updateSignatureByUrl url info w
      = (Resolved merged,
         set_store
           (Store (globalToken (wstore w))
              (<[LegacyJSSDK.normalizeUrl url := merged]> (urls (wstore w)))
              (oauthTokens (wstore w))) w) /\
    get "url" merged = get "url" old /\
    get "signatureName" merged = get "signatureName" old.
Proof.
  intros Hold. unfold LegacyJSSDK.updateSignatureByUrl, bind, now,
    StoreOps.updateSignature. cbv zeta. cbn [clock wstore set_store].
  rewrite Hold. eexists. split; [reflexivity|]. cbn [default].
  split.
  - apply get_assign_absent.
    rewrite lookup_del_ne by discriminate. apply lookup_del_eq.
  - apply get_assign_absent. apply lookup_del_eq.
Qed.

(** With a record for the url, [saveSignature] goes through
    [updateSignature] with the dated copy of [info]. *)
Lemma JSSDK_saveSignature_updates (info : obj) w old :
  NoDup (keys info) ->
  urls (wstore w) !! to_string (get "url" info) = Some old ->
  JSSDK.saveSignature info w
  = JSSDK.updateSignature (to_string (get "url" info))
      (set "modifyDate" (VNum (clock w))
         (set "createDate" (VNum (clock w)) (assign [] info))) w.
Proof.
  intros Hnd Hold.
  unfold JSSDK.saveSignature, bind, now, StoreOps.isSignatureExisting.
  cbv zeta. cbn [clock wstore].
  rewrite !get_set_eq.
  rewrite !(get_set_ne "url") by discriminate.
  rewrite !get_copy by exact Hnd.
  rewrite Hold. rewrite bool_decide_eq_true_2 by eauto.
  reflexivity.
Qed.

(** With no record for the url, [saveSignature] inserts the new record
    under its [signatureName]. *)
Lemma JSSDK_saveSignature_inserts (info : obj) w :
  NoDup (keys info) ->
  urls (wstore w) !! to_string (get "url" info) = None ->
  truthy (get "signatureName" info) = true ->
  exists saved,
    JSSDK.saveSignature info w
      = (Resolved saved,
         set_store
           (Store (globalToken (wstore w))
              (<[to_string (get "signatureName" info) := saved]>
                 (urls (wstore w)))
              (oauthTokens (wstore w))) w) /\
    get "createDate" saved = VNum (clock w) /\
    get "modifyDate" saved = VNum (clock w) /\
    get "url" saved = get "url" info /\
    get "signatureName" saved = get "signatureName" info.
Proof.
  intros Hnd Hnone Hname.
  unfold JSSDK.saveSignature, bind, now, StoreOps.isSignatureExisting.
  cbv zeta. cbn [clock wstore].
  rewrite !get_set_eq.
  rewrite !(get_set_ne "url") by discriminate.
  rewrite !(get_set_ne "signatureName") by discriminate.
  rewrite !get_copy by exact Hnd.
  rewrite Hnone, Hname.
  rewrite bool_decide_eq_false_2 by (intros [x Hx]; discriminate).
  cbn [negb]. unfold StoreOps.saveSignature. cbv zeta.
  eexists. split; [reflexivity|].
  rewrite get_set_eq.
  rewrite (get_set_ne "createDate") by discriminate.
  rewrite get_set_eq.
  rewrite !(get_set_ne "url") by discriminate.
  rewrite !(get_set_ne "signatureName") by discriminate.
  rewrite !get_copy by exact Hnd.
  repeat split.
Qed.

End SignatureEngine.


(** C9. Neither class protects all three of [createDate], [url] and
    [signatureName] when [saveSignature] finds an existing record.

    Legacy class: a second [saveNewSignature] for the same url goes through
    [updateSignatureByUrl], which deletes [url] and [signatureName] from
    the payload but leaves the [createDate] set a moment before, so the
    stored [createDate] is overwritten (100 becomes 200). The TypeScript
    class keeps it.

    TypeScript class: [updateSignature] deletes [createDate] and
    [signatureName] but leaves [url] in the payload. A record saved under
    the name [http://b.example/] with url [http://a.example/] has its
    [url] rewritten by the next [saveSignature] for [http://b.example/].
    The legacy class keeps it. *)
Theorem C9_update_overwrites_protected_field :
  let page := "http://example.com/page" in
  let a := "http://a.example/" in
  let b := "http://b.example/" in
  let l1 := snd (LegacyJSSDK.saveNewSignature (sig_info page page "s1")
                   (fresh_world 100)) in
  let l2 := snd (LegacyJSSDK.saveNewSignature (sig_info page page "s2")
                   (set_clock 200 l1)) in
  let t1 := snd (JSSDK.saveSignature (sig_info page page "s1")
                   (fresh_world 100)) in
  let t2 := snd (JSSDK.saveSignature (sig_info page page "s2")
                   (set_clock 200 t1)) in
  let u1 := snd (JSSDK.saveSignature (sig_info a b "s1") (fresh_world 100)) in
  let u2 := snd (JSSDK.saveSignature (sig_info b b "s2") (set_clock 200 u1)) in
  let v1 := snd (LegacyJSSDK.saveNewSignature (sig_info a b "s1")
                   (fresh_world 100)) in
  let v2 := snd (LegacyJSSDK.saveNewSignature (sig_info b b "s2")
                   (set_clock 200 v1)) in
  (stored_field l1 page "createDate" = Some (VNum 100) /\
   stored_field l2 page "createDate" = Some (VNum 200) /\
   stored_field l2 page "signature" = Some (VStr "s2")) /\
  (stored_field t1 page "createDate" = Some (VNum 100) /\
   stored_field t2 page "createDate" = Some (VNum 100) /\
   stored_field t2 page "signature" = Some (VStr "s2")) /\
  (stored_field u1 b "url" = Some (VStr a) /\
   stored_field u2 b "url" = Some (VStr b) /\
   stored_field u2 b "signature" = Some (VStr "s2")) /\
  (stored_field v1 b "url" = Some (VStr a) /\
   stored_field v2 b "url" = Some (VStr a) /\
   stored_field v2 b "signature" = Some (VStr "s2")).
Proof. repeat split; vm_compute; reflexivity. Qed.

(** ** OAuth tokens *)

Lemma setAccessTokenExpirationTime_some t r e :
  expires_in r = Some e -> e <> 0%Z ->
  expirationTime (OAuth.setAccessTokenExpirationTime t r)
    = Some (t + (e - 60) * 1000)%Z.
Proof.
  intros He Hne. unfold OAuth.setAccessTokenExpirationTime. rewrite He.
  destruct (Z.eqb_spec e 0); [contradiction|reflexivity].
Qed.

Lemma setAccessTokenExpirationTime_unchanged t r :
  expires_in r = None \/ expires_in r = Some 0%Z ->
  OAuth.setAccessTokenExpirationTime t r = r.
Proof.
  intros [He|He]; unfold OAuth.setAccessTokenExpirationTime; now rewrite He.
Qed.

(** Everything but [expirationTime] is left alone. *)
Lemma setAccessTokenExpirationTime_frame t r :
  let r' := OAuth.setAccessTokenExpirationTime t r in
  key r' = key r /\ access_token r' = access_token r /\
  refresh_token r' = refresh_token r /\ openid r' = openid r /\
  expires_in r' = expires_in r /\ createDate r' = createDate r /\
  modifyDate r' = modifyDate r.
Proof.
  unfold OAuth.setAccessTokenExpirationTime.
  destruct (expires_in r) as [e|] eqn:He; [destruct (e =? 0)%Z|];
    cbn; rewrite ?He; repeat split; reflexivity.
Qed.

Lemma isAccessTokenExpired_iff clock r x :
  expirationTime r = Some x -> (0 <= clock)%Z ->
  OAuth.isAccessTokenExpired clock r = false <-> (clock < x)%Z.
Proof.
  intros Hx Hc. unfold OAuth.isAccessTokenExpired. rewrite Hx.
  destruct (Z.eqb_spec x 0) as [->|Hne].
  - split; [discriminate|lia].
  - destruct (Z.geb_spec (clock - x) 0); split; intros; (lia || congruence).
Qed.

(** C7. A record with an [expires_in] value (one the guard
    [!tokenInfo.expires_in] lets through) gets
    [expirationTime = issueTime + (expires_in - 60) * 1000], and
    [isAccessTokenExpired] treats it as valid exactly while the clock is
    before that instant, as expired from that instant on. *)
Theorem C7_expirationTime_margin (issueTime clock e : Z) (r : StoreOAuthItem) :
  expires_in r = Some e -> e <> 0%Z -> (0 <= clock)%Z ->
  let r' := OAuth.setAccessTokenExpirationTime issueTime r in
  expirationTime r' = Some (issueTime + (e - 60) * 1000)%Z /\
  (OAuth.isAccessTokenExpired clock r' = false
     <-> (clock < issueTime + (e - 60) * 1000)%Z) /\
  (OAuth.isAccessTokenExpired clock r' = true
     <-> (clock >= issueTime + (e - 60) * 1000)%Z).
Proof.
  intros He Hne Hc r'.
  pose proof (setAccessTokenExpirationTime_some issueTime r e He Hne) as Hx.
  fold r' in Hx.
  pose proof (isAccessTokenExpired_iff clock r' _ Hx Hc) as Hv.
  split; [exact Hx|]. split; [exact Hv|].
  destruct (OAuth.isAccessTokenExpired clock r').
  - split; [intros _|reflexivity].
    destruct (Z_lt_ge_dec clock (issueTime + (e - 60) * 1000)) as [Hlt|Hge];
      [apply Hv in Hlt; discriminate|exact Hge].
  - split; [discriminate|]. intros Hge.
    assert (clock < issueTime + (e - 60) * 1000)%Z by (now apply Hv). lia.
Qed.

(** A token issued at 1000 s with [expires_in = 7200]: valid up to one
    millisecond before 8140 s, expired from 8140 s on. *)
Lemma C7_expirationTime_margin_witness :
  expirationTime (OAuth.setAccessTokenExpirationTime 1000000 sample_token)
    = Some 8140000%Z /\
  OAuth.isAccessTokenExpired 8139999
    (OAuth.setAccessTokenExpirationTime 1000000 sample_token) = false /\
  OAuth.isAccessTokenExpired 8140000
    (OAuth.setAccessTokenExpirationTime 1000000 sample_token) = true.
Proof.
  assert (He : expires_in sample_token = Some 7200%Z) by reflexivity.
  assert (Hne : 7200%Z <> 0%Z) by lia.
  split; [|split].
  - refine (proj1 (C7_expirationTime_margin 1000000 0 7200 sample_token
                     He Hne _)). lia.
  - refine (proj2 (proj1 (proj2 (C7_expirationTime_margin 1000000 8139999 7200
                     sample_token He Hne _))) _); lia.
  - refine (proj2 (proj2 (proj2 (C7_expirationTime_margin 1000000 8140000 7200
                     sample_token He Hne _))) _); lia.
Defined.

Section OAuthAccess.
Variable options : WeChatOptions.

Lemma refreshAccessToken_sent k info w :
  sent (snd (OAuth.refreshAccessToken options k info w))
  = (sent w ++ [OAuthRefreshReq (appId options) (refresh_token info)])%list.
Proof.
  unfold OAuth.refreshAccessToken, bind, sendWechatRequest.
  destruct (upstream w (sent w) _); reflexivity.
Qed.

Lemma getAccessTokenRemotely_sent code k w :
  sent (snd (OAuth.getAccessTokenRemotely options code k w))
  = (sent w ++ [OAuthCodeReq (appId options) (appSecret options) code])%list.
Proof.
  unfold OAuth.getAccessTokenRemotely, bind, sendWechatRequest.
  destruct (upstream w (sent w) _); reflexivity.
Qed.

Lemma getAccessToken_no_code code k w :
  truthy code = false ->
  OAuth.getAccessToken options code k w =
  match oauthTokens (wstore w) !! to_string k with
  | None => (Rejected "please get new code!", w)
  | Some info =>
      if OAuth.isAccessTokenExpired (clock w) info
      then OAuth.refreshAccessToken options k info w
      else (Resolved info, w)
  end.
Proof.
  intros Hc. unfold OAuth.getAccessToken. rewrite Hc.
  unfold bind, StoreOps.getOAuthAccessToken.
  destruct (oauthTokens (wstore w) !! to_string k); reflexivity.
Qed.

(** C10. A cached record without [expirationTime] (the property is
    missing, or holds the falsy 0) counts as expired, so
    [getAccessToken] without a code never hands it back as it is: it
    runs [refreshAccessToken] on it, which sends the refresh request. A
    reply without [expires_in] yields such a record, because
    [setAccessTokenExpirationTime] leaves it unchanged. *)
Theorem C10_no_expirationTime_refreshes code k info w :
  truthy code = false ->
  oauthTokens (wstore w) !! to_string k = Some info ->
  expirationTime info = None \/ expirationTime info = Some 0%Z ->
  OAuth.isAccessTokenExpired (clock w) info = true /\
  OAuth.getAccessToken options code k w
    = OAuth.refreshAccessToken options k info w /\
  sent (snd (OAuth.getAccessToken options code k w))
    = (sent w ++ [OAuthRefreshReq (appId options) (refresh_token info)])%list /\
  OAuth.getAccessToken options code k w <> (Resolved info, w) /\
  (forall t reply,
      expires_in reply = None ->
      OAuth.setAccessTokenExpirationTime t reply = reply).
Proof.
  intros Hc Hk He.
  assert (Hx : OAuth.isAccessTokenExpired (clock w) info = true)
    by (unfold OAuth.isAccessTokenExpired; destruct He as [He|He];
        now rewrite He).
  assert (Hg : OAuth.getAccessToken options code k w
               = OAuth.refreshAccessToken options k info w)
    by (rewrite (getAccessToken_no_code code k w Hc), Hk, Hx; reflexivity).
  split; [exact Hx|]. split; [exact Hg|].
  split; [rewrite Hg; apply refreshAccessToken_sent|].
  split.
  - intros Heq. pose proof (refreshAccessToken_sent k info w) as Hs.
    rewrite <- Hg, Heq in Hs. simpl in Hs.
    apply (f_equal (@List.length request)) in Hs.
    rewrite length_app in Hs. simpl in Hs. lia.
  - intros t reply Hr. apply setAccessTokenExpirationTime_unchanged. now left.
Qed.

(** C6, amended. With a code, [getAccessToken] always sends the
    [authorization_code] exchange, whatever the cache holds. If the
    exchange is rejected, the rejection is passed on and the store is
    untouched. If it resolves, the record is persisted under the key, or
    under the returned openid when the key is absent, and comes back as
    the result; its [expirationTime] is [now + (expires_in - 60) * 1000]
    when the reply carries a non-zero [expires_in], and is not computed
    otherwise. Without a code: no cached record rejects with
    [please get new code!], an expired record goes to
    [refreshAccessToken], any other record is returned unchanged. *)
Theorem C6_getAccessToken_cases code k w :
  (truthy code = true ->
   let req :=
     OAuthCodeReq (appId options) (appSecret options) (to_string code) in
   sent (snd (OAuth.getAccessToken options code k w)) = (sent w ++ [req])%list /\
   (forall reason,
       upstream w (sent w) req = Rejected reason ->
       OAuth.getAccessToken options code k w
         = (Rejected reason, set_sent (sent w ++ [req]) w)) /\
   (forall reply,
       upstream w (sent w) req = Resolved reply ->
       let oauthKey := if truthy k then k else get "openid" reply in
       exists data w',
         OAuth.getAccessToken options code k w = (Resolved data, w') /\
         oauthTokens (wstore w') !! to_string oauthKey = Some data /\
         key data = oauthKey /\
         access_token data = get "access_token" reply /\
         refresh_token data = get "refresh_token" reply /\
         createDate data = Some (clock w) /\
         modifyDate data = Some (clock w) /\
         (forall e, get "expires_in" reply = VNum e -> e <> 0%Z ->
                    expirationTime data
                      = Some (clock w + (e - 60) * 1000)%Z) /\
         (get "expires_in" reply = VUndef ->
          expirationTime data = as_number (get "expirationTime" reply))))
  /\
  (truthy code = false ->
   oauthTokens (wstore w) !! to_string k = None ->
   OAuth.getAccessToken options code k w
     = (Rejected "please get new code!", w))
  /\
  (truthy code = false ->
   forall info,
     oauthTokens (wstore w) !! to_string k = Some info ->
     OAuth.isAccessTokenExpired (clock w) info = true ->
     OAuth.getAccessToken options code k w
       = OAuth.refreshAccessToken options k info w)
  /\
  (truthy code = false ->
   forall info,
     oauthTokens (wstore w) !! to_string k = Some info ->
     OAuth.isAccessTokenExpired (clock w) info = false ->
     OAuth.getAccessToken options code k w = (Resolved info, w)).
Proof.
  split; [|split; [|split]].
  - intros Hc req. unfold OAuth.getAccessToken. rewrite Hc.
    split; [apply getAccessTokenRemotely_sent|]. split.
    + intros reason Hup.
      unfold OAuth.getAccessTokenRemotely, bind, sendWechatRequest.
      fold req. now rewrite Hup.
    + intros reply Hup.
      unfold OAuth.getAccessTokenRemotely, bind, sendWechatRequest.
      fold req. rewrite Hup.
      eexists. eexists. split; [reflexivity|].
      cbn [wstore set_store set_sent oauthTokens clock key access_token
           refresh_token createDate modifyDate expirationTime openid].
      destruct (setAccessTokenExpirationTime_frame (clock w)
                  (asStoreOAuthItem reply)) as (_ & Ha & Hr & Ho & _).
      rewrite Ha, Hr, Ho.
      split; [apply lookup_insert_eq|].
      do 5 (split; [reflexivity|]).
      split.
      * intros e He Hne.
        apply setAccessTokenExpirationTime_some; [|exact Hne].
        unfold asStoreOAuthItem. cbn [expires_in]. now rewrite He.
      * intros He. rewrite setAccessTokenExpirationTime_unchanged.
        -- reflexivity.
        -- left. unfold asStoreOAuthItem. cbn [expires_in]. now rewrite He.
  - intros Hc Hk. now rewrite (getAccessToken_no_code code k w Hc), Hk.
  - intros Hc info Hk Hx.
    now rewrite (getAccessToken_no_code code k w Hc), Hk, Hx.
  - intros Hc info Hk Hx.
    now rewrite (getAccessToken_no_code code k w Hc), Hk, Hx.
Qed.

End OAuthAccess.

(** A session whose cached record has no [expirationTime]. *)
Lemma C10_no_expirationTime_refreshes_witness :
  let w := oauth_world {[ "sid" := sample_token ]} no_upstream in
  OAuth.getAccessToken sample_options VUndef (VStr "sid") w
  = OAuth.refreshAccessToken sample_options (VStr "sid") sample_token w.
Proof.
  intros w.
  refine (proj1 (proj2 (C10_no_expirationTime_refreshes sample_options
                          VUndef (VStr "sid") sample_token w _ _ _)));
    [reflexivity|reflexivity|left; reflexivity].
Defined.

(** C6, the claim as stated fails: when the reply of the code exchange has
    no [expires_in], the record is persisted without an [expirationTime]. *)
Lemma C6_reply_without_expires_in_has_no_expirationTime :
  let w := oauth_world ∅ (upstream_code_reply reply_without_expires_in) in
  let res := OAuth.getAccessToken sample_options (VStr "CODE") (VStr "sid") w in
  exists data,
    fst res = Resolved data /\
    oauthTokens (wstore (snd res)) !! "sid" = Some data /\
    expirationTime data = None.
Proof. eexists. repeat split; vm_compute; reflexivity. Qed.

(** A code exchange without a key, while another session is cached: the
    request goes out and the record lands under the returned openid. *)
Lemma C6_getAccessToken_cases_witness :
  let w :=
    oauth_world {[ "sid" := sample_token ]}
      (upstream_code_reply reply_with_expires_in) in
  let req := OAuthCodeReq (VStr "wx-app") (VStr "wx-secret") "CODE" in
  sent (snd (OAuth.getAccessToken sample_options (VStr "CODE") VUndef w)) = [req] /\
  exists data w',
    OAuth.getAccessToken sample_options (VStr "CODE") VUndef w
      = (Resolved data, w') /\
    oauthTokens (wstore w') !! "openid-1" = Some data /\
    expirationTime data = Some 8140000%Z.
Proof.
  intros w req.
  destruct (C6_getAccessToken_cases sample_options (VStr "CODE") VUndef w)
    as [Hcode _].
  destruct (Hcode eq_refl) as (Hsent & _ & Hok).
  split; [exact Hsent|].
  destruct (Hok reply_with_expires_in eq_refl)
    as (data & w' & Hrun & Hstored & _ & _ & _ & _ & _ & Hexp & _).
  exists data, w'. split; [exact Hrun|]. split; [exact Hstored|].
  apply (Hexp 7200%Z); [reflexivity|lia].
Defined.

(** * Further properties of the code *)

(** ** [normalizeUrl] as a function on cache keys *)


Lemma append_empty_r (s : string) : s = s ++ EmptyString.
Proof.
  induction s as [|c s IH]; [reflexivity|].
  change (String c s = String c (s ++ EmptyString)). now f_equal.
Qed.





(** ** Creating a signature and reading it back *)

Section CreateSignature.
Variable options : WeChatOptions.


Lemma prepareGlobalToken_frame w :
  let w1 := snd (JSSDK.prepareGlobalToken options w) in
  clock w1 = clock w /\ urls (wstore w1) = urls (wstore w) /\
  oauthTokens (wstore w1) = oauthTokens (wstore w) /\
  rng w1 = rng w /\ drawn w1 = drawn w /\ upstream w1 = upstream w /\
  refreshedTimes w1 = refreshedTimes w.
Proof.
  unfold JSSDK.prepareGlobalToken, bind, StoreOps.getGlobalToken,
    JSSDK.getAccessToken, JSSDK.getJsApiTicket, sendWechatRequest,
    JSSDK.updateAccessTokenOrTicketGlobally, now, StoreOps.updateGlobalToken,
    ret.
  cbv zeta.
  destruct (globalToken (wstore w)) as [g|];
    [destruct (Utils.isExpired _ _)|];
    cbn [snd]; try (repeat split; reflexivity);
    (destruct (upstream w (sent w) _) as [result|r]; cbn [snd sent upstream set_sent];
     [destruct (upstream w _ _) as [ticketResult|r]|]);
    repeat split; reflexivity.
Qed.


End CreateSignature.

Section SaveGenerated.
Variable options : WeChatOptions.


Lemma get_assign_NoDup k target (src : obj) v :
  NoDup (keys src) -> JS.lookup k src = Some v -> get k (assign target src) = v.
Proof.
  intros Hnd Hk. unfold get. rewrite (lookup_assign k target src Hnd), Hk.
  reflexivity.
Qed.


End SaveGenerated.

Section CreateAndRead.
Variable options : WeChatOptions.


End CreateAndRead.

Section RoundTrip.
Variable options : WeChatOptions.






End RoundTrip.




Section CachedReads.
Variable options : WeChatOptions.


(** X7. With no record for the url and no [signatureName], [saveSignature]
    is rejected with [signature.signatureName is undefined] and leaves the
    world as it was. *)
Theorem X7_saveSignature_without_name_rejected (info : obj) w :
  NoDup (keys info) ->
  urls (wstore w) !! to_string (get "url" info) = None ->
  truthy (get "signatureName" info) = false ->
  JSSDK.saveSignature info w
  = (Rejected "signature.signatureName is undefined", w).
Proof.
  intros Hnd Hnone Hname.
  unfold JSSDK.saveSignature, bind, now, StoreOps.isSignatureExisting.
  cbv zeta. cbn [clock wstore].
  rewrite !get_set_eq.
  rewrite !(get_set_ne "url") by discriminate.
  rewrite !(get_set_ne "signatureName") by discriminate.
  rewrite !get_copy by exact Hnd.
  rewrite Hnone, Hname.
  rewrite bool_decide_eq_false_2 by (intros [x Hx]; discriminate).
  reflexivity.
Qed.

End CachedReads.


Lemma X7_saveSignature_without_name_rejected_witness :
  JSSDK.saveSignature [("url", VStr "http://example.com/page")] (fresh_world 100)
  = (Rejected "signature.signatureName is undefined", fresh_world 100).
Proof.
  apply X7_saveSignature_without_name_rejected.
  - apply (bool_decide_unpack _). vm_compute. exact I.
  - reflexivity.
  - reflexivity.
Defined.

(** ** The global token record *)

(** X8. [updateAccessTokenOrTicketGlobally] always stamps [modifyDate] with
    the current time, writes the token and the ticket only when they are
    truthy, and leaves every other property of the stored record alone: an
    empty or missing value never erases what the store holds. The legacy
    class has the same method. *)
Theorem X8_update_never_erases token ticket w :
  let old := default [] (globalToken (wstore w)) in
  exists merged,
    JSSDK.updateAccessTokenOrTicketGlobally token ticket w
    = (Resolved merged,
       set_store
         (Store (Some merged) (urls (wstore w)) (oauthTokens (wstore w))) w) /\
    get "modifyDate" merged = VNum (clock w) /\
    get "accessToken" merged
      = (if truthy token then token else get "accessToken" old) /\
    get "jsapi_ticket" merged
      = (if truthy ticket then ticket else get "jsapi_ticket" old) /\
    (forall k, k <> "modifyDate" -> k <> "accessToken" -> k <> "jsapi_ticket" ->
               get k merged = get k old) /\
    LegacyJSSDK.updateAccessTokenOrTicketGlobally token ticket w
    = JSSDK.updateAccessTokenOrTicketGlobally token ticket w.
Proof.
  intros old.
  unfold JSSDK.updateAccessTokenOrTicketGlobally, bind, now,
    StoreOps.updateGlobalToken.
  cbv zeta. cbn [clock wstore]. fold old.
  eexists. split; [reflexivity|].
  split; [|split; [|split; [|split; [|reflexivity]]]];
    try (intros k H1 H2 H3);
    destruct (truthy token), (truthy ticket);
    cbn [assign fold_left fst snd JS.set String.eqb Ascii.eqb Bool.eqb];
    repeat first
      [ rewrite get_set_eq
      | rewrite get_set_ne by (discriminate || congruence) ];
    reflexivity.
Qed.

Section TokenAndTicket.
Variable options : WeChatOptions.

(** X9. [getGlobalTokenAndTicket] asks [prepareGlobalToken] for the record
    and then always fetches a ticket with its access token, also when the
    record came from the cache. A rejection of either step is passed on and
    the later steps do not run. When the ticket arrives, the stored record
    gets it, keeps the access token and has [modifyDate] set to the current
    time. *)
Theorem X9_getGlobalTokenAndTicket_steps w :
  (forall reason wp,
      JSSDK.prepareGlobalToken options w = (Rejected reason, wp) ->
      JSSDK.getGlobalTokenAndTicket options w = (Rejected reason, wp))
  /\
  (forall data w1,
      JSSDK.prepareGlobalToken options w = (Resolved data, w1) ->
      let req := TicketReq (get "accessToken" data) in
      sent (snd (JSSDK.getGlobalTokenAndTicket options w))
        = (sent w1 ++ [req])%list /\
      (forall reason,
          upstream w1 (sent w1) req = Rejected reason ->
          JSSDK.getGlobalTokenAndTicket options w
            = (Rejected reason, set_sent (sent w1 ++ [req]) w1)) /\
      (forall ticketResult,
          upstream w1 (sent w1) req = Resolved ticketResult ->
          exists merged w',
            JSSDK.getGlobalTokenAndTicket options w = (Resolved merged, w') /\
            globalToken (wstore w') = Some merged /\
            get "modifyDate" merged = VNum (clock w) /\
            (truthy (get "accessToken" data) = true ->
             get "accessToken" merged = get "accessToken" data) /\
            (truthy (get "ticket" ticketResult) = true ->
             get "jsapi_ticket" merged = get "ticket" ticketResult))).
Proof.
  split.
  - intros reason wp Hprep.
    unfold JSSDK.getGlobalTokenAndTicket, bind. now rewrite Hprep.
  - intros data w1 Hprep req.
    pose proof (prepareGlobalToken_frame options w) as Hf.
    rewrite Hprep in Hf. cbn [snd] in Hf. destruct Hf as (Hclock & _).
    unfold JSSDK.getGlobalTokenAndTicket, bind. rewrite Hprep. cbv zeta.
    unfold JSSDK.getJsApiTicket, sendWechatRequest. fold req.
    split; [|split].
    + destruct (upstream w1 (sent w1) req); reflexivity.
    + intros reason Hup. now rewrite Hup.
    + intros ticketResult Hup. rewrite Hup.
      unfold JSSDK.updateAccessTokenOrTicketGlobally, bind, now,
        StoreOps.updateGlobalToken.
      cbv zeta. cbn [clock wstore set_sent set_store].
      eexists. eexists. split; [reflexivity|].
      cbn [wstore globalToken]. split; [reflexivity|].
      rewrite Hclock.
      destruct (truthy (get "accessToken" data)),
               (truthy (get "ticket" ticketResult));
        cbn [assign fold_left fst snd JS.set String.eqb Ascii.eqb Bool.eqb];
        repeat split; intros; try discriminate;
        repeat first
          [ rewrite get_set_eq
          | rewrite get_set_ne by discriminate ];
        reflexivity.
Qed.

End TokenAndTicket.

Lemma X9_getGlobalTokenAndTicket_steps_witness :
  let w := token_world 5000 (Some (cached_token 4000)) upstream_ok in
  exists merged w',
    JSSDK.getGlobalTokenAndTicket sample_options w = (Resolved merged, w') /\
    sent w' = [TicketReq (VStr "TOKEN")] /\
    get "accessToken" merged = VStr "TOKEN" /\
    get "jsapi_ticket" merged = VStr "NEW-TICKET" /\
    get "modifyDate" merged = VNum 5000.
Proof.
  intros w.
  destruct (X9_getGlobalTokenAndTicket_steps sample_options w) as [_ Hok].
  destruct (Hok (cached_token 4000) w eq_refl) as (Hsent & _ & Hres).
  destruct (Hres [("ticket", VStr "NEW-TICKET")] eq_refl)
    as (merged & w' & Hrun & _ & Hmod & Htok & Htic).
  exists merged, w'. split; [exact Hrun|].
  split; [rewrite Hrun in Hsent; exact Hsent|].
  split; [apply Htok; reflexivity|].
  split; [apply Htic; reflexivity|exact Hmod].
Defined.

(** ** The legacy class: refresh budget and signatures *)

Section LegacyMore.
Variable cfg : WeChatOptions.

(** X10. The refresh budget binds manual calls only. A forced
    [getNewTokenAndTicket] sends the access-token request whatever the
    counter holds and does not count; [prepareNewSignature] does not count
    either. A manual call counts one, also when it is rejected or when the
    upstream fails. *)
Theorem X10_forced_refresh_outside_budget w :
  (exists tail,
      sent (snd (LegacyJSSDK.getNewTokenAndTicket cfg true w))
      = (sent w ++ AccessTokenReq (appId cfg) (appSecret cfg) :: tail)%list) /\
  refreshedTimes (snd (LegacyJSSDK.getNewTokenAndTicket cfg true w))
    = refreshedTimes w /\
  refreshedTimes (snd (LegacyJSSDK.prepareNewSignature cfg w))
    = refreshedTimes w /\
  refreshedTimes (snd (LegacyJSSDK.getNewTokenAndTicket cfg false w))
    = (refreshedTimes w + 1)%Z.
Proof.
  split; [|split; [|split]].
  - rewrite getNewTokenAndTicket_forced. apply fetchAndStore_sends_first.
  - apply forced_is_other.
  - apply prepare_is_other.
  - apply (manual_counter cfg w).
Qed.




End LegacyMore.


(** ** OAuth: exchange, refresh and profile *)

Section OAuthFlows.
Variable options : WeChatOptions.

Lemma getAccessTokenRemotely_resolved code k w reply :
  upstream w (sent w) (OAuthCodeReq (appId options) (appSecret options) code)
    = Resolved reply ->
  let oauthKey := or_else k (get "openid" reply) in
  exists data,
    OAuth.getAccessTokenRemotely options code k w
    = (Resolved data,
       set_store
         (Store (globalToken (wstore w)) (urls (wstore w))
            (<[to_string oauthKey := data]> (oauthTokens (wstore w))))
         (set_sent
            (sent w ++ [OAuthCodeReq (appId options) (appSecret options) code])
            w)) /\
    key data = oauthKey /\
    access_token data = get "access_token" reply /\
    openid data = get "openid" reply /\
    expirationTime data
      = expirationTime
          (OAuth.setAccessTokenExpirationTime (clock w) (asStoreOAuthItem reply)).
Proof.
  intros Hup oauthKey.
  unfold OAuth.getAccessTokenRemotely, bind, sendWechatRequest, now,
    StoreOps.saveOAuthAccessToken. rewrite Hup. cbv zeta.
  cbn [clock wstore set_sent set_store].
  destruct (setAccessTokenExpirationTime_frame (clock w)
              (asStoreOAuthItem reply)) as (_ & Ha & _ & Ho & _).
  rewrite Ha, Ho.
  eexists. split; [reflexivity|]. repeat split.
Qed.

(** X12. A token obtained with a code is served from the cache afterwards:
    once the exchange has resolved with a non-zero [expires_in], a call
    without code under the key the record was stored under (the key, or
    the returned openid when no key was given) returns the very same
    record and sends nothing, as long as the record is still in the store
    and the clock is before [issue time + (expires_in - 60) * 1000]. *)
Theorem X12_code_exchange_then_cached code k w reply e w2 :
  truthy code = true ->
  upstream w (sent w)
    (OAuthCodeReq (appId options) (appSecret options) (to_string code))
    = Resolved reply ->
  get "expires_in" reply = VNum e -> e <> 0%Z ->
  let oauthKey := or_else k (get "openid" reply) in
  let w1 := snd (OAuth.getAccessToken options code k w) in
  oauthTokens (wstore w2) !! to_string oauthKey
    = oauthTokens (wstore w1) !! to_string oauthKey ->
  (0 <= clock w2 < clock w + (e - 60) * 1000)%Z ->
  exists data,
    OAuth.getAccessToken options code k w = (Resolved data, w1) /\
    OAuth.getAccessToken options VUndef oauthKey w2 = (Resolved data, w2).
Proof.
  intros Hcode Hup He Hne oauthKey w1 Hkept Htime.
  destruct (getAccessTokenRemotely_resolved (to_string code) k w reply Hup)
    as (data & Hrun & _ & _ & _ & Hexp).
  assert (Hget : OAuth.getAccessToken options code k w
                 = OAuth.getAccessTokenRemotely options (to_string code) k w)
    by (unfold OAuth.getAccessToken; now rewrite Hcode).
  unfold w1 in *. rewrite Hget, Hrun in *. cbn [snd] in *.
  exists data. split; [reflexivity|].
  cbn [wstore set_store oauthTokens] in Hkept.
  fold oauthKey in Hkept. rewrite lookup_insert_eq in Hkept.
  rewrite (getAccessToken_no_code options VUndef oauthKey w2 eq_refl), Hkept.
  rewrite setAccessTokenExpirationTime_some with (e := e) in Hexp;
    [|unfold asStoreOAuthItem; cbn [expires_in]; now rewrite He|exact Hne].
  replace (OAuth.isAccessTokenExpired (clock w2) data) with false;
    [reflexivity|].
  symmetry. apply (isAccessTokenExpired_iff _ _ _ Hexp); lia.
Qed.

Lemma refreshAccessToken_resolved k info w reply :
  upstream w (sent w) (OAuthRefreshReq (appId options) (refresh_token info))
    = Resolved reply ->
  let data := OAuth.setAccessTokenExpirationTime (clock w) (asStoreOAuthItem reply) in
  let oauthKey := or_else k (get "openid" reply) in
  let payload :=
    OAuthItem (key data) (access_token data) (refresh_token data)
      (openid data) (expires_in data) (expirationTime data)
      (createDate data) (Some (clock w)) in
  let merged :=
    assignOAuthItem
      (default emptyOAuthItem (oauthTokens (wstore w) !! to_string oauthKey))
      payload in
  OAuth.refreshAccessToken options k info w
  = (Resolved merged,
     set_store
       (Store (globalToken (wstore w)) (urls (wstore w))
          (<[to_string oauthKey := merged]> (oauthTokens (wstore w))))
       (set_sent
          (sent w ++ [OAuthRefreshReq (appId options) (refresh_token info)]) w)).
Proof.
  intros Hup data oauthKey payload merged.
  unfold OAuth.refreshAccessToken, bind, sendWechatRequest, now,
    StoreOps.updateOAuthAccessToken. rewrite Hup. cbv zeta.
  cbn [clock wstore set_sent set_store].
  destruct (setAccessTokenExpirationTime_frame (clock w)
              (asStoreOAuthItem reply)) as (_ & _ & _ & Ho & _).
  unfold merged, payload, oauthKey, data. rewrite !Ho. reflexivity.
Qed.

(** X13. Refreshing an expired record stored under a key: the refresh
    request carries the cached [refresh_token]; a rejection is passed on
    and the store is untouched; on success the reply is merged into the
    cached record, which keeps its [createDate] and its [refresh_token]
    when the reply brings none, gets [modifyDate] set to now and, for a
    non-zero [expires_in], a new [expirationTime]; the merged record is
    what the store then holds under the key and what the call returns. *)
Theorem X13_refresh_merges_into_cached k info w :
  truthy k = true ->
  oauthTokens (wstore w) !! to_string k = Some info ->
  OAuth.isAccessTokenExpired (clock w) info = true ->
  let req := OAuthRefreshReq (appId options) (refresh_token info) in
  (forall reason,
      upstream w (sent w) req = Rejected reason ->
      OAuth.getAccessToken options VUndef k w
      = (Rejected reason, set_sent (sent w ++ [req]) w))
  /\
  (forall reply,
      upstream w (sent w) req = Resolved reply ->
      exists merged w',
        OAuth.getAccessToken options VUndef k w = (Resolved merged, w') /\
        sent w' = (sent w ++ [req])%list /\
        oauthTokens (wstore w') !! to_string k = Some merged /\
        modifyDate merged = Some (clock w) /\
        (get "createDate" reply = VUndef ->
         createDate merged = createDate info) /\
        (get "refresh_token" reply = VUndef ->
         refresh_token merged = refresh_token info) /\
        (forall tok, get "access_token" reply = VStr tok ->
                     access_token merged = VStr tok) /\
        (forall e, get "expires_in" reply = VNum e -> e <> 0%Z ->
                   expirationTime merged
                     = Some (clock w + (e - 60) * 1000)%Z)).
Proof.
  intros Hk Hinfo Hexp req.
  assert (Hget : OAuth.getAccessToken options VUndef k w
                 = OAuth.refreshAccessToken options k info w)
    by (rewrite (getAccessToken_no_code options VUndef k w eq_refl),
          Hinfo, Hexp; reflexivity).
  rewrite Hget. split.
  - intros reason Hup.
    unfold OAuth.refreshAccessToken, bind, sendWechatRequest. fold req.
    now rewrite Hup.
  - intros reply Hup.
    rewrite (refreshAccessToken_resolved k info w reply Hup).
    unfold or_else. rewrite Hk, Hinfo. cbn [default].
    eexists. eexists. split; [reflexivity|].
    cbn [sent set_sent set_store wstore oauthTokens].
    split; [reflexivity|]. split; [apply lookup_insert_eq|].
    destruct (setAccessTokenExpirationTime_frame (clock w)
                (asStoreOAuthItem reply)) as (_ & Ha & Hr & _ & _ & Hc & _).
    cbn [assignOAuthItem modifyDate createDate refresh_token access_token
         expirationTime].
    rewrite Ha, Hr, Hc.
    split; [reflexivity|]. split; [|split; [|split]].
    + intros Hcd. unfold asStoreOAuthItem. cbn [createDate]. now rewrite Hcd.
    + intros Hrt. unfold asStoreOAuthItem. cbn [refresh_token]. now rewrite Hrt.
    + intros tok Htok. unfold asStoreOAuthItem. cbn [access_token].
      now rewrite Htok.
    + intros e He Hne.
      rewrite setAccessTokenExpirationTime_some with (e := e);
        [reflexivity| |exact Hne].
      unfold asStoreOAuthItem. cbn [expires_in]. now rewrite He.
Qed.

End OAuthFlows.

Lemma X12_code_exchange_then_cached_witness :
  let w := oauth_world ∅ (upstream_code_reply reply_with_expires_in) in
  let w1 := snd (OAuth.getAccessToken sample_options (VStr "CODE") VUndef w) in
  exists data,
    OAuth.getAccessToken sample_options (VStr "CODE") VUndef w
      = (Resolved data, w1) /\
    OAuth.getAccessToken sample_options VUndef (VStr "openid-1")
      (set_clock 8139999 w1)
    = (Resolved data, set_clock 8139999 w1).
Proof.
  intros w w1.
  apply (X12_code_exchange_then_cached sample_options (VStr "CODE") VUndef w
           reply_with_expires_in 7200 (set_clock 8139999 w1)).
  - reflexivity.
  - reflexivity.
  - reflexivity.
  - lia.
  - reflexivity.
  - vm_compute. split; [discriminate|reflexivity].
Defined.

Lemma X13_refresh_merges_into_cached_witness :
  let w := oauth_world {[ "sid" := sample_token ]} upstream_refresh_ok in
  exists merged w',
    OAuth.getAccessToken sample_options VUndef (VStr "sid") w
      = (Resolved merged, w') /\
    access_token merged = VStr "FRESH" /\
    expirationTime merged = Some 8140000%Z.
Proof.
  intros w.
  destruct (X13_refresh_merges_into_cached sample_options (VStr "sid")
              sample_token w eq_refl eq_refl eq_refl) as [_ Hok].
  destruct (Hok refresh_reply eq_refl)
    as (merged & w' & Hrun & _ & _ & _ & _ & _ & Htok & Hexp).
  exists merged, w'. split; [exact Hrun|].
  split; [apply Htok; reflexivity|].
  apply (Hexp 7200%Z); [reflexivity|lia].
Defined.

Section UserInfo.
Variable options : WeChatOptions.

(** X14. [getUserInfo] asks for the profile only after [getAccessToken]
    has resolved, and with the token it resolved with. For an expired
    cached record this is the refreshed token: the requests sent are the
    refresh and then the profile request with the new [access_token],
    never one with the stale token. When [getAccessToken] is rejected, no
    profile request is sent at all. *)
Theorem X14_getUserInfo_after_token code k withToken w :
  (forall reason wp,
      OAuth.getAccessToken options code k w = (Rejected reason, wp) ->
      OAuth.getUserInfo options code k withToken w = (Rejected reason, wp))
  /\
  (forall tok w1,
      OAuth.getAccessToken options code k w = (Resolved tok, w1) ->
      let req := UserInfoReq (access_token tok) (openid tok) in
      sent (snd (OAuth.getUserInfo options code k withToken w))
        = (sent w1 ++ [req])%list /\
      (forall reason,
          upstream w1 (sent w1) req = Rejected reason ->
          OAuth.getUserInfo options code k withToken w
          = (Rejected reason, set_sent (sent w1 ++ [req]) w1)) /\
      (forall profile,
          upstream w1 (sent w1) req = Resolved profile ->
          exists result,
            OAuth.getUserInfo options code k withToken w
            = (Resolved result, set_sent (sent w1 ++ [req]) w1) /\
            (withToken = false -> result = profile) /\
            (forall p v, NoDup (keys profile) ->
                         JS.lookup p profile = Some v -> get p result = v)))
  /\
  (forall info reply fresh,
      truthy code = false -> truthy k = true ->
      oauthTokens (wstore w) !! to_string k = Some info ->
      OAuth.isAccessTokenExpired (clock w) info = true ->
      upstream w (sent w)
        (OAuthRefreshReq (appId options) (refresh_token info)) = Resolved reply ->
      get "access_token" reply = VStr fresh ->
      let oid :=
        match get "openid" reply with
        | VUndef => openid info
        | _ => get "openid" reply
        end in
      sent (snd (OAuth.getUserInfo options code k withToken w))
      = (sent w ++ [OAuthRefreshReq (appId options) (refresh_token info);
                    UserInfoReq (VStr fresh) oid])%list).
Proof.
  split; [|split].
  - intros reason wp Hget. unfold OAuth.getUserInfo, bind. now rewrite Hget.
  - intros tok w1 Hget req.
    unfold OAuth.getUserInfo, bind. rewrite Hget.
    unfold OAuth.getUserInfoRemotely, bind, sendWechatRequest, ret. fold req.
    split; [|split].
    + destruct (upstream w1 (sent w1) req); reflexivity.
    + intros reason Hup. now rewrite Hup.
    + intros profile Hup. rewrite Hup. eexists. split; [reflexivity|].
      split.
      * intros ->. reflexivity.
      * intros p v Hnd Hp. destruct withToken.
        -- now apply get_assign_NoDup.
        -- unfold get. now rewrite Hp.
  - intros info reply fresh Hcode Hk Hinfo Hexp Hup Hfresh oid.
    assert (Hget : OAuth.getAccessToken options code k w
                   = OAuth.refreshAccessToken options k info w)
      by (rewrite (getAccessToken_no_code options code k w Hcode),
            Hinfo, Hexp; reflexivity).
    unfold OAuth.getUserInfo, bind. rewrite Hget.
    rewrite (refreshAccessToken_resolved options k info w reply Hup).
    unfold OAuth.getUserInfoRemotely, bind, sendWechatRequest, ret.
    cbn [sent set_sent set_store upstream].
    destruct (setAccessTokenExpirationTime_frame (clock w)
                (asStoreOAuthItem reply)) as (_ & Ha & _ & Ho & _).
    unfold or_else. rewrite Hk, Hinfo.
    cbn [assignOAuthItem access_token openid default]. rewrite Ha, Ho.
    unfold asStoreOAuthItem. cbn [access_token openid]. rewrite Hfresh.
    unfold oid.
    match goal with
    | |- context [upstream w ?l ?r] => destruct (upstream w l r)
    end; cbn [snd sent set_sent id]; rewrite <- app_assoc; reflexivity.
Qed.

End UserInfo.

Lemma X14_getUserInfo_after_token_witness :
  let w := oauth_world {[ "sid" := sample_token ]} upstream_refresh_ok in
  sent (snd (OAuth.getUserInfo sample_options VUndef (VStr "sid") false w))
  = [OAuthRefreshReq (VStr "wx-app") (VStr "REFRESH");
     UserInfoReq (VStr "FRESH") (VStr "openid-1")].
Proof.
  intros w.
  destruct (X14_getUserInfo_after_token sample_options VUndef (VStr "sid")
              false w) as (_ & _ & Hfresh).
  exact (Hfresh sample_token refresh_reply "FRESH"
           eq_refl eq_refl eq_refl eq_refl eq_refl eq_refl).
Defined.

(** ** The OAuth redirect url *)

Lemma string_app_assoc (a b c : string) : (a ++ b) ++ c = a ++ (b ++ c).
Proof.
  induction a as [|x a IH]; [reflexivity|].
  change (String x ((a ++ b) ++ c) = String x (a ++ (b ++ c))). now f_equal.
Qed.

Lemma no_hash_app a b : no_hash (a ++ b) = no_hash a && no_hash b.
Proof.
  induction a as [|x a IH]; [reflexivity|].
  change (no_hash (String x (a ++ b)) = no_hash (String x a) && no_hash b).
  simpl. rewrite IH. now rewrite andb_assoc.
Qed.

Lemma no_hash_escape_cons c rest :
  no_hash (QueryString.escape (String c rest))
  = no_hash (QueryString.escape rest).
Proof.
  destruct c as [[] [] [] [] [] [] [] []]; reflexivity.
Qed.

(** [querystring.escape] leaves no [#] behind. *)
Lemma no_hash_escape s : no_hash (QueryString.escape s) = true.
Proof.
  induction s as [|c s IH]; [reflexivity|].
  now rewrite no_hash_escape_cons.
Qed.

Section RedirectUrl.
Variable options : WeChatOptions.
Variable urlOptions : OAuth.OAuthUrlOptions.

(** The redirect url, spelled out. *)
Lemma generateOAuthUrl_canonical redirectUrl scope state :
  OAuth.generateOAuthUrl options urlOptions redirectUrl scope state
  = OAuth.oAuthUrl urlOptions ++ "?"
    ++ "appid=" ++ QueryString.escape (QueryString.stringifyPrimitive (appId options))
    ++ "&redirect_uri=" ++ QueryString.escape redirectUrl
    ++ "&response_type=code"
    ++ "&scope=" ++ QueryString.escape (effective_scope scope)
    ++ "&state=" ++ QueryString.escape (effective_state urlOptions state)
    ++ "#wechat_redirect".
Proof.
  unfold OAuth.generateOAuthUrl, effective_scope, effective_state.
  cbv zeta. rewrite !string_app_assoc. f_equal.
  destruct (truthy scope); unfold OAuth.REDIRECT_HASH, QueryString.stringify;
    cbn -[QueryString.escape QueryString.stringifyPrimitive or_else
          String.append];
    match goal with
    | |- context [fold_left _ ?l []] =>
        let v := eval vm_compute in l in change l with v
    end;
    cbn -[QueryString.escape QueryString.stringifyPrimitive or_else
          String.append];
    cbn [QueryString.stringifyPrimitive];
    rewrite !string_app_assoc; reflexivity.
Qed.

(** X15. The redirect url is the configured url, a [?], the five
    parameters in alphabetical order ([appid], [redirect_uri],
    [response_type], [scope], [state]) with escaped values, and the
    fragment [#wechat_redirect]. The scope is [snsapi_userinfo] unless a
    scope is passed; the state is the one passed, else the configured one,
    else [userAuth]. *)
Theorem X15_generateOAuthUrl_shape redirectUrl scope state :
  OAuth.generateOAuthUrl options urlOptions redirectUrl scope state
  = OAuth.oAuthUrl urlOptions ++ "?"
    ++ "appid=" ++ QueryString.escape (QueryString.stringifyPrimitive (appId options))
    ++ "&redirect_uri=" ++ QueryString.escape redirectUrl
    ++ "&response_type=code"
    ++ "&scope=" ++ QueryString.escape (effective_scope scope)
    ++ "&state=" ++ QueryString.escape (effective_state urlOptions state)
    ++ "#wechat_redirect".
Proof. apply generateOAuthUrl_canonical. Qed.

(** X16. Whatever the redirect url, the scope and the state contain, the
    generated url has one fragment only, [#wechat_redirect], provided the
    configured url has none: every [#] of the values is escaped. So
    [normalizeUrl] strips exactly the redirect marker. *)
Theorem X16_generateOAuthUrl_single_fragment redirectUrl scope state :
  no_hash (OAuth.oAuthUrl urlOptions) = true ->
  parse_hash (OAuth.generateOAuthUrl options urlOptions redirectUrl scope state)
    = Some "#wechat_redirect" /\
  JSSDK.normalizeUrl
    (OAuth.generateOAuthUrl options urlOptions redirectUrl scope state)
  ++ "#wechat_redirect"
  = OAuth.generateOAuthUrl options urlOptions redirectUrl scope state.
Proof.
  intros Hurl.
  set (base := OAuth.oAuthUrl urlOptions ++ "?"
    ++ "appid=" ++ QueryString.escape (QueryString.stringifyPrimitive (appId options))
    ++ "&redirect_uri=" ++ QueryString.escape redirectUrl
    ++ "&response_type=code"
    ++ "&scope=" ++ QueryString.escape (effective_scope scope)
    ++ "&state=" ++ QueryString.escape (effective_state urlOptions state)).
  assert (Hshape :
            OAuth.generateOAuthUrl options urlOptions redirectUrl scope state
            = base ++ "#wechat_redirect").
  { rewrite generateOAuthUrl_canonical. unfold base.
    now rewrite !string_app_assoc. }
  assert (Hbase : no_hash base = true).
  { unfold base. rewrite !no_hash_app, !no_hash_escape, Hurl. reflexivity. }
  assert (Hne : base <> EmptyString).
  { unfold base. destruct (OAuth.oAuthUrl urlOptions); discriminate. }
  rewrite Hshape. split.
  - apply (parse_hash_split base "wechat_redirect" Hbase eq_refl).
  - now rewrite
      (JSSDK_normalizeUrl_strips base "wechat_redirect" Hbase Hne eq_refl).
Qed.

End RedirectUrl.

(** A redirect target with a fragment and a query of its own. *)
Lemma X16_generateOAuthUrl_single_fragment_witness :
  let u := OAuth.generateOAuthUrl sample_options sample_url_options
             "http://example.com/cb?x=1#top" VUndef (VStr "a#b") in
  parse_hash u = Some "#wechat_redirect" /\
  JSSDK.normalizeUrl u ++ "#wechat_redirect" = u.
Proof.
  intros u.
  refine (X16_generateOAuthUrl_single_fragment sample_options
            sample_url_options "http://example.com/cb?x=1#top" VUndef
            (VStr "a#b") _).
  reflexivity.
Defined.

(** ** The handshake does not tell its three values apart *)

Lemma string_leb_trans (s1 s2 s3 : string) :
  String.leb s1 s2 = true -> String.leb s2 s3 = true ->
  String.leb s1 s3 = true.
Proof.
  unfold String.leb. revert s2 s3.
  induction s1 as [|a s1 IH]; intros [|b s2] [|c s3]; cbn [String.compare];
    try easy.
  unfold Ascii.compare.
  destruct (N.compare_spec (N_of_ascii a) (N_of_ascii b)),
    (N.compare_spec (N_of_ascii b) (N_of_ascii c)),
    (N.compare_spec (N_of_ascii a) (N_of_ascii c));
    try easy; try lia.
  apply IH.
Qed.

#[local] Instance string_le_trans : Transitive string_le.
Proof. intros a b c. apply string_leb_trans. Qed.

#[local] Instance string_le_antisym : AntiSymm eq string_le.
Proof. intros a b. apply String.leb_antisym. Qed.

Lemma insert_sorted_perm {A} (le : A -> A -> bool) x l :
  Permutation (insert_sorted le x l) (x :: l).
Proof.
  induction l as [|y l IH]; [reflexivity|].
  cbn [insert_sorted]. destruct (le y x); [|reflexivity].
  rewrite IH. apply Permutation_swap.
Qed.

Lemma sort_from_perm {A} (le : A -> A -> bool) l acc :
  Permutation (fold_left (fun acc x => insert_sorted le x acc) l acc)
    (l ++ acc)%list.
Proof.
  revert acc. induction l as [|x l IH]; intros acc; [reflexivity|].
  cbn [fold_left]. rewrite IH, insert_sorted_perm.
  symmetry. apply Permutation_middle.
Qed.

Lemma insert_sorted_sorted x l :
  Sorted string_le l -> Sorted string_le (insert_sorted String.leb x l).
Proof.
  induction 1 as [|y l Hl IH Hhd]; [repeat constructor|].
  cbn [insert_sorted]. destruct (String.leb y x) eqn:Hyx.
  - constructor; [exact IH|].
    destruct l as [|z l]; cbn [insert_sorted].
    + now constructor.
    + destruct (String.leb z x); constructor; [|exact Hyx].
      now inversion Hhd.
  - constructor; [now constructor|]. constructor.
    destruct (String.leb_total x y) as [H|H]; [exact H|congruence].
Qed.

Lemma sort_from_sorted l acc :
  Sorted string_le acc ->
  Sorted string_le
    (fold_left (fun acc x => insert_sorted String.leb x acc) l acc).
Proof.
  revert acc. induction l as [|x l IH]; intros acc Hacc; [exact Hacc|].
  cbn [fold_left]. apply IH, insert_sorted_sorted, Hacc.
Qed.

(** Sorting strings forgets the order they came in. *)
Lemma sort_by_perm (l l' : list string) :
  Permutation l l' -> sort_by String.leb l = sort_by String.leb l'.
Proof.
  intros Hp. unfold sort_by.
  apply (Sorted_unique string_le); try (apply sort_from_sorted; constructor).
  now rewrite !sort_from_perm, Hp.
Qed.

(** Sorting by a key and reading the keys off is sorting the keys. *)
Lemma insert_sorted_map {A B} (g : A -> B) (le : B -> B -> bool) x l :
  map g (insert_sorted (fun a b => le (g a) (g b)) x l)
  = insert_sorted le (g x) (map g l).
Proof.
  induction l as [|y l IH]; [reflexivity|].
  cbn [insert_sorted map]. destruct (le (g y) (g x)); cbn [map]; congruence.
Qed.

Lemma sort_from_map {A B} (g : A -> B) (le : B -> B -> bool) l acc :
  map g (fold_left
           (fun acc x => insert_sorted (fun a b => le (g a) (g b)) x acc)
           l acc)
  = fold_left (fun acc x => insert_sorted le x acc) (map g l) (map g acc).
Proof.
  revert acc. induction l as [|x l IH]; intros acc; [reflexivity|].
  cbn [fold_left map]. now rewrite IH, insert_sorted_map.
Qed.

Lemma sort_by_map {A B} (g : A -> B) (le : B -> B -> bool) l :
  map g (sort_by (fun a b => le (g a) (g b)) l) = sort_by le (map g l).
Proof. apply (sort_from_map g le l []). Qed.

Lemma sort_by_perm_input {A} (le : A -> A -> bool) l :
  Permutation (sort_by le l) l.
Proof.
  unfold sort_by. rewrite sort_from_perm. now rewrite app_nil_r.
Qed.

Lemma concat_empty_cons x l :
  String.concat "" (x :: l) = x ++ String.concat "" l.
Proof.
  destruct l; [|reflexivity]. cbn [String.concat]. apply append_empty_r.
Qed.

Lemma concat_empty_app l1 l2 :
  String.concat "" (l1 ++ l2)%list
  = String.concat "" l1 ++ String.concat "" l2.
Proof.
  induction l1 as [|x l1 IH]; [reflexivity|].
  change ((x :: l1) ++ l2)%list with (x :: (l1 ++ l2))%list.
  now rewrite !concat_empty_cons, IH, string_app_assoc.
Qed.

(** What [sort] followed by [join('')] yields: the string conversions of
    the defined elements, sorted and concatenated. *)
Lemma join_sort_strings (arr : list value) :
  join_empty (array_sort arr)
  = String.concat ""
      (sort_by String.leb
         (map to_string (filter (fun v => v <> VUndef) arr))).
Proof.
  unfold join_empty, array_sort.
  rewrite map_app, concat_empty_app.
  set (defined := filter (fun v => v <> VUndef) arr).
  set (undefs := filter (fun v => v = VUndef) arr).
  assert (Hu : String.concat ""
                 (map (fun v => match v with VUndef => "" | _ => to_string v end)
                    undefs) = "").
  { assert (Hall : Forall (fun v => v = VUndef) undefs)
      by (apply Forall_forall; intros v Hv; unfold undefs in Hv;
          apply list_elem_of_filter in Hv; tauto).
    induction Hall as [|v l Hv _ IH]; [reflexivity|].
    cbn [map]. rewrite concat_empty_cons, IH, Hv. reflexivity. }
  rewrite Hu, <- append_empty_r. f_equal.
  rewrite <- (sort_by_map to_string String.leb).
  apply map_ext_in. intros v Hv.
  apply (proj2 (list_elem_of_In _ _)) in Hv.
  rewrite sort_by_perm_input in Hv.
  apply list_elem_of_filter in Hv. destruct Hv as [Hv _].
  destruct v; [contradiction| |]; reflexivity.
Qed.

(** The hashed string is the same for every arrangement of the values. *)
Lemma join_sort_perm (arr arr' : list value) :
  Permutation arr arr' ->
  join_empty (array_sort arr) = join_empty (array_sort arr').
Proof.
  intros Hp. rewrite !join_sort_strings. f_equal.
  apply sort_by_perm. now rewrite Hp.
Qed.

(** X17. The handshake check does not tell the token, the timestamp and
    the nonce apart: two handshakes whose three values are the same up to
    their order (timestamp and nonce exchanged, or the token sent as the
    nonce of an instance whose token is that nonce) hash the same string and
    get the same verdict for the same signature, in both classes. *)
Theorem X17_verifySignature_ignores_roles options options' query query' :
  Permutation
    [wechatToken options'; get "timestamp" query'; get "nonce" query']
    [wechatToken options; get "timestamp" query; get "nonce" query] ->
  get "signature" query' = get "signature" query ->
  sorted_concat options' query' = sorted_concat options query /\
  JSSDK.verifySignature options' query'
    = JSSDK.verifySignature options query /\
  LegacyJSSDK.verifySignature options' query'
    = LegacyJSSDK.verifySignature options query.
Proof.
  intros Hp Hs.
  assert (Hc : sorted_concat options' query' = sorted_concat options query)
    by (unfold sorted_concat; apply join_sort_perm, Hp).
  assert (Hv : JSSDK.verifySignature options' query'
               = JSSDK.verifySignature options query)
    by (rewrite !JSSDK_verifySignature_unfold; now rewrite Hc, Hs).
  split; [exact Hc|]. split; exact Hv.
Qed.

(** A handshake that verifies, and the one where the token and the nonce
    have changed places. *)
Lemma X17_verifySignature_ignores_roles_witness :
  let options := Options (VStr "wx") (VStr "secret") (VStr "tok") in
  let options' := Options (VStr "wx") (VStr "secret") (VStr "n456") in
  let query :=
    [("timestamp", VStr "1400000000"); ("nonce", VStr "n456");
     ("signature", VStr (SHA1.hex "1400000000n456tok"))] in
  let query' :=
    [("timestamp", VStr "1400000000"); ("nonce", VStr "tok");
     ("signature", VStr (SHA1.hex "1400000000n456tok"))] in
  JSSDK.verifySignature options query = true /\
  JSSDK.verifySignature options' query'
    = JSSDK.verifySignature options query.
Proof.
  intros options options' query query'.
  split; [vm_compute; reflexivity|].
  refine (proj1 (proj2
    (X17_verifySignature_ignores_roles options options' query query' _ _))).
  - cbn. eapply perm_trans; [apply perm_swap|].
    eapply perm_trans; [apply perm_skip, perm_swap|]. apply perm_swap.
  - reflexivity.
Defined.

(** ** The legacy class: creating a signature and reading it back *)

Section LegacyRoundTrip.
Variable cfg : WeChatOptions.







End LegacyRoundTrip.


